(** * near_api.account: the Account class of near-api-py

    A shallow embedding of [near_api/account.py] and the properties of its
    transaction-submission and view-call paths.

    Layout:
    - Python values, exceptions and the primitive operations the module
      applies to them (subscript, [in], [len], iteration, [chr], [encode]);
    - a state-and-exception monad that also records the calls made to the
      collaborators (provider, signer, base58, json) and the lines printed;
    - the [Account] class, method by method;
    - reference collaborators used by the examples;
    - the properties. *)

From Stdlib Require Import ZArith String Ascii List Lia DecimalString.
From stdpp Require Import gmap list.

Open Scope string_scope.
Open Scope list_scope.
Open Scope Z_scope.

(** ** Python values *)

(** A Python [str] is its sequence of code points; [bytes] is a sequence of
    integers in [0, 256). *)
Abbreviation pystr := (list Z) (only parsing).
Abbreviation pybytes := (list Z) (only parsing).

(** An ASCII literal of the source as a [str]. *)
Definition py (s : string) : pystr :=
  (λ a, Z.of_N (N_of_ascii a)) <$> list_ascii_of_string s.
Arguments py : simpl never.

(** The values exchanged with the JSON-RPC provider: what [json] decoding
    produces.  JSON numbers are the integers (no floating point); a [dict] has
    [str] keys. *)
#[warnings="-register-all"] Inductive PyVal : Type :=
| PNone
| PBool (b : bool)
| PInt (z : Z)
| PStr (s : pystr)
| PList (l : list PyVal)
| PDict (d : gmap pystr PyVal).

(** The argument an exception of this module is constructed with.
    [Formatted r] stands for the f-string of [_sign_and_submit_tx_async],
    [f'Unable to sign and submit transaction. tx_hash is ...'], with [r]
    interpolated. *)
Inductive ErrArg : Type :=
| Payload (v : PyVal)
| Formatted (r : PyVal).

Inductive Exn : Type :=
| TransactionError (arg : ErrArg)
| ViewFunctionError (arg : ErrArg)
| KeyError (key : pystr)
| TypeError
| ValueError
| OverflowError
| AttributeError
| UnicodeEncodeError
| CollaboratorError (info : PyVal).

Inductive Result (A : Type) : Type :=
| Ok (a : A)
| Raise (e : Exn).
Arguments Ok {A} a.
Arguments Raise {A} e.

(** ** Primitive operations *)

(** [obj[key]] for a [str] key. *)
Definition py_getitem (obj : PyVal) (key : pystr) : Result PyVal :=
  match obj with
  | PDict d => match d !! key with
               | Some v => Ok v
               | None => Raise (KeyError key)
               end
  | _ => Raise TypeError
  end.

(** [obj[key] = v] for a [str] key; yields the updated object. *)
Definition py_setitem (obj : PyVal) (key : pystr) (v : PyVal) : Result PyVal :=
  match obj with
  | PDict d => Ok (PDict (<[key := v]> d))
  | _ => Raise TypeError
  end.

(** [x + 1]; [bool] is a subclass of [int]. *)
Definition py_add1 (x : PyVal) : Result PyVal :=
  match x with
  | PInt z => Ok (PInt (z + 1))
  | PBool b => Ok (PInt (Z.b2z b + 1))
  | _ => Raise TypeError
  end.

Fixpoint is_prefix (p s : pystr) : bool :=
  match p, s with
  | [], _ => true
  | _ :: _, [] => false
  | a :: p', b :: s' => (a =? b) && is_prefix p' s'
  end.

Fixpoint is_substring (p s : pystr) : bool :=
  is_prefix p s ||
  match s with
  | [] => false
  | _ :: s' => is_substring p s'
  end.

Definition is_str (key : pystr) (v : PyVal) : bool :=
  match v with
  | PStr s => bool_decide (s = key)
  | _ => false
  end.

(** [key in obj] for a [str] key: key membership in a [dict], substring of a
    [str], element of a [list]. *)
Definition py_contains (key : pystr) (obj : PyVal) : Result bool :=
  match obj with
  | PDict d => Ok (bool_decide (is_Some (d !! key)))
  | PStr s => Ok (is_substring key s)
  | PList l => Ok (existsb (is_str key) l)
  | _ => Raise TypeError
  end.

(** [len(obj)]. *)
Definition py_len (obj : PyVal) : Result Z :=
  match obj with
  | PStr s => Ok (Z.of_nat (length s))
  | PList l => Ok (Z.of_nat (length l))
  | PDict d => Ok (Z.of_nat (size d))
  | _ => Raise TypeError
  end.

(** The items [for x in obj] visits.  A [dict] yields its keys; their order of
    insertion is not part of a [gmap], so they come in the map's own order. *)
Definition py_iter (obj : PyVal) : Result (list PyVal) :=
  match obj with
  | PList l => Ok l
  | PStr s => Ok ((λ c, PStr [c]) <$> s)
  | PDict d => Ok ((λ kv, PStr kv.1) <$> map_to_list d)
  | _ => Raise TypeError
  end.

(** [chr(x)]: the one-character string of code point [x].  The argument is
    first converted to a C [int] (32 bits), which raises [OverflowError]
    outside its range; within it, a value that is not a code point raises
    [ValueError]. *)
Definition py_chr (x : PyVal) : Result pystr :=
  let of_int z :=
    if (z <? -2147483648) || (2147483647 <? z) then Raise OverflowError
    else if (0 <=? z) && (z <? 0x110000) then Ok [z]
    else Raise ValueError in
  match x with
  | PInt z => of_int z
  | PBool b => of_int (Z.b2z b)
  | _ => Raise TypeError
  end.

(** [[chr(x) for x in items]] *)
Fixpoint chr_all (items : list PyVal) : Result (list pystr) :=
  match items with
  | [] => Ok []
  | x :: rest =>
      match py_chr x with
      | Raise e => Raise e
      | Ok c => match chr_all rest with
                | Raise e => Raise e
                | Ok cs => Ok (c :: cs)
                end
      end
  end.

(** [''.join(parts)] *)
Definition py_join (parts : list pystr) : pystr := concat parts.

(** The UTF-8 encoding of one code point; surrogates cannot be encoded. *)
Definition utf8_encode_char (c : Z) : Result pybytes :=
  if (c <? 0) then Raise UnicodeEncodeError
  else if c <? 0x80 then Ok [c]
  else if c <? 0x800 then
    Ok [Z.lor 0xC0 (Z.shiftr c 6); Z.lor 0x80 (Z.land c 0x3F)]
  else if c <? 0x10000 then
    if (0xD800 <=? c) && (c <=? 0xDFFF) then Raise UnicodeEncodeError
    else Ok [Z.lor 0xE0 (Z.shiftr c 12);
             Z.lor 0x80 (Z.land (Z.shiftr c 6) 0x3F);
             Z.lor 0x80 (Z.land c 0x3F)]
  else if c <? 0x110000 then
    Ok [Z.lor 0xF0 (Z.shiftr c 18);
        Z.lor 0x80 (Z.land (Z.shiftr c 12) 0x3F);
        Z.lor 0x80 (Z.land (Z.shiftr c 6) 0x3F);
        Z.lor 0x80 (Z.land c 0x3F)]
  else Raise UnicodeEncodeError.

(** [s.encode('utf8')] on a [str]. *)
Fixpoint utf8_encode (s : pystr) : Result pybytes :=
  match s with
  | [] => Ok []
  | c :: rest =>
      match utf8_encode_char c with
      | Raise e => Raise e
      | Ok b => match utf8_encode rest with
                | Raise e => Raise e
                | Ok bs => Ok (b ++ bs)
                end
      end
  end.

(** [obj.encode('utf8')]: only a [str] has the method. *)
Definition py_encode_utf8 (obj : PyVal) : Result pybytes :=
  match obj with
  | PStr s => utf8_encode s
  | _ => Raise AttributeError
  end.

(** ** Collaborators, state and the execution monad *)

Section Model.

Context {World Signer Action : Type}.

(** [near_api.providers.JsonProvider]: every method is a round trip to the
    remote node, an arbitrary function of the state of the world. *)
Record JsonProvider : Type := {
  get_account : pystr -> World -> Result PyVal * World;
  get_access_key : pystr -> PyVal -> World -> Result PyVal * World;
  get_status : World -> Result PyVal * World;
  send_tx : pybytes -> World -> Result PyVal * World;
  send_tx_and_wait : pybytes -> Z -> World -> Result PyVal * World;
  view_call : pystr -> pystr -> pybytes -> World -> Result PyVal * World
}.

(** The functions of [near_api.transactions], [near_api.signer], [base58] and
    [json] that the module calls. *)
Class Externals : Type := {
  sign_and_serialize_transaction :
    pystr -> PyVal -> list Action -> pybytes -> Signer ->
    World -> Result pybytes * World;
  encoded_public_key : Signer -> Result PyVal;
  b58decode : pybytes -> Result pybytes;
  json_dumps : PyVal -> Result pystr;
  json_loads : pystr -> Result PyVal;
  create_transfer_action : PyVal -> Action;
  create_function_call_action : pystr -> pybytes -> PyVal -> PyVal -> Action;
  create_create_account_action : Action;
  create_full_access_key_action : PyVal -> Action;
  create_delete_access_key_action : PyVal -> Action;
  create_delete_account_action : pystr -> Action;
  create_deploy_contract_action : PyVal -> Action;
  create_staking_action : PyVal -> PyVal -> Action
}.

Context `{Ext : Externals}.

(** The attributes of an [Account] object. *)
Record Account : Type := mkAccount {
  _provider : JsonProvider;
  _signer : Signer;
  _account_id : pystr;
  _account : PyVal;
  _access_key : PyVal
}.

Definition set_account (v : PyVal) (a : Account) : Account :=
  mkAccount (_provider a) (_signer a) (_account_id a) v (_access_key a).

Definition set_access_key (v : PyVal) (a : Account) : Account :=
  mkAccount (_provider a) (_signer a) (_account_id a) (_account a) v.

(** What a method does that can be seen from outside it: the calls to the
    collaborators with their arguments, the stores into the access key and
    the lines printed, in the order they happen. *)
Inductive Event : Type :=
| CallGetAccount (account_id : pystr)
| CallGetStatus
| CallSendTx (signed_tx : pybytes)
| CallSendTxAndWait (signed_tx : pybytes) (timeout : Z)
| CallViewCall (contract_id method_name : pystr) (args : pybytes)
| CallSign (receiver_id : pystr) (nonce : PyVal) (actions : list Action)
           (block_hash : pybytes) (signer : Signer)
| CallB58Decode (v : pybytes)
| CallJsonDumps (v : PyVal)
| CallJsonLoads (text : pystr)
| StoreAccessKey (key : pystr) (v : PyVal)
| Print (log : PyVal).

(** The state a method runs in: the world the collaborators act on, and the
    account object.  The collaborators see the world only; the values they
    return are not shared with the attributes of the account. *)
Record State : Type := mkState { world : World; self : Account }.

Record Out (A : Type) : Type := mkOut {
  res : Result A;
  final : State;
  trace : list Event
}.
Arguments mkOut {A} _ _ _.
Arguments res {A} _.
Arguments final {A} _.
Arguments trace {A} _.

(** A computation runs from a state to a result or an exception, a final
    state (kept when an exception is raised) and the events it produced. *)
Definition M (A : Type) : Type := State -> Out A.

Definition ret {A} (a : A) : M A := fun s => mkOut (Ok a) s [].

Definition raise {A} (e : Exn) : M A := fun s => mkOut (Raise e) s [].

Definition bind {A B} (m : M A) (k : A -> M B) : M B :=
  fun s =>
    match m s with
    | mkOut (Raise e) s1 t1 => mkOut (Raise e) s1 t1
    | mkOut (Ok a) s1 t1 =>
        match k a s1 with
        | mkOut r s2 t2 => mkOut r s2 (t1 ++ t2)
        end
    end.

Definition lift {A} (r : Result A) : M A :=
  fun s => mkOut r s [].

Definition get_self : M Account := fun s => mkOut (Ok (self s)) s [].

Definition put_self (a : Account) : M unit :=
  fun s => mkOut (Ok tt) (mkState (world s) a) [].

(** A call to a collaborator that may read and change the world. *)
Definition call {A} (ev : Event) (f : World -> Result A * World) : M A :=
  fun s =>
    match f (world s) with
    | (r, w) => mkOut r (mkState w (self s)) [ev]
    end.

(** A call to a library function. *)
Definition call_pure {A} (ev : Event) (r : Result A) : M A :=
  fun s => mkOut r s [ev].

Definition emit (ev : Event) : M unit :=
  fun s => mkOut (Ok tt) s [ev].

Notation "x <- m ;; k" := (bind m (fun x => k))
  (at level 90, m at next level, right associativity).
Notation "m ;;; k" := (bind m (fun _ => k))
  (at level 90, right associativity).

(** [for x in items: body(x)] *)
Fixpoint for_each {A} (items : list A) (body : A -> M unit) : M unit :=
  match items with
  | [] => ret tt
  | x :: rest => body x ;;; for_each rest body
  end.

(** ** The Account class *)

(** Amount of gas attached by default 1e14. *)
Definition DEFAULT_ATTACHED_GAS : Z := 100000000000000.

(** [Account.__init__] *)
Definition init (provider : JsonProvider) (signer : Signer)
    (account_id : pystr) (w : World) : Result Account * World :=
  let (r1, w1) := get_account provider account_id w in
  match r1 with
  | Raise e => (Raise e, w1)
  | Ok account =>
      match encoded_public_key signer with
      | Raise e => (Raise e, w1)
      | Ok public_key =>
          let (r2, w2) := get_access_key provider account_id public_key w1 in
          match r2 with
          | Raise e => (Raise e, w2)
          | Ok access_key =>
              (Ok (mkAccount provider signer account_id account access_key), w2)
          end
      end
  end.

(** [self._access_key[key] = v] *)
Definition store_access_key (key : pystr) (v : PyVal) : M unit :=
  a <- get_self ;;
  d <- lift (py_setitem (_access_key a) key v) ;;
  put_self (set_access_key d a) ;;;
  emit (StoreAccessKey key v).

(** The body of the loop over the outcomes:
    [for log in outcome['outcome']['logs']: print("Log:", log, flush=True)] *)
Definition print_logs (outcome : PyVal) : M unit :=
  inner <- lift (py_getitem outcome (py "outcome")) ;;
  logs <- lift (py_getitem inner (py "logs")) ;;
  items <- lift (py_iter logs) ;;
  for_each items (fun log => emit (Print log)).

(** [Account._sign_and_submit_tx] *)
Definition _sign_and_submit_tx (receiver_id : pystr) (actions : list Action)
    : M PyVal :=
  (* self._access_key["nonce"] += 1 *)
  a <- get_self ;;
  old <- lift (py_getitem (_access_key a) (py "nonce")) ;;
  new <- lift (py_add1 old) ;;
  store_access_key (py "nonce") new ;;;
  (* block_hash = self._provider.get_status()['sync_info']['latest_block_hash'] *)
  a <- get_self ;;
  status <- call CallGetStatus (get_status (_provider a)) ;;
  sync_info <- lift (py_getitem status (py "sync_info")) ;;
  block_hash <- lift (py_getitem sync_info (py "latest_block_hash")) ;;
  (* block_hash = base58.b58decode(block_hash.encode('utf8')) *)
  encoded <- lift (py_encode_utf8 block_hash) ;;
  block_hash <- call_pure (CallB58Decode encoded) (b58decode encoded) ;;
  (* serialized_tx = transactions.sign_and_serialize_transaction(...) *)
  a <- get_self ;;
  nonce <- lift (py_getitem (_access_key a) (py "nonce")) ;;
  serialized_tx <-
    call (CallSign receiver_id nonce actions block_hash (_signer a))
         (sign_and_serialize_transaction receiver_id nonce actions block_hash
            (_signer a)) ;;
  (* result = self._provider.send_tx_and_wait(serialized_tx, 10) *)
  a <- get_self ;;
  result <- call (CallSendTxAndWait serialized_tx 10)
                 (send_tx_and_wait (_provider a) serialized_tx 10) ;;
  (* for outcome in itertools.chain([result['transaction_outcome']],
                                    result['receipts_outcome']): ... *)
  transaction_outcome <- lift (py_getitem result (py "transaction_outcome")) ;;
  receipts_outcome <- lift (py_getitem result (py "receipts_outcome")) ;;
  print_logs transaction_outcome ;;;
  outcomes <- lift (py_iter receipts_outcome) ;;
  for_each outcomes print_logs ;;;
  (* if 'Failure' in result['status']: raise TransactionError(...) *)
  status <- lift (py_getitem result (py "status")) ;;
  failed <- lift (py_contains (py "Failure") status) ;;
  if (failed : bool) then
    status <- lift (py_getitem result (py "status")) ;;
    payload <- lift (py_getitem status (py "Failure")) ;;
    raise (TransactionError (Payload payload))
  else
    ret result.

(** [Account._sign_and_submit_tx_async] *)
Definition _sign_and_submit_tx_async (receiver_id : pystr)
    (actions : list Action) : M PyVal :=
  (* self._access_key["nonce"] += 1 *)
  a <- get_self ;;
  old <- lift (py_getitem (_access_key a) (py "nonce")) ;;
  new <- lift (py_add1 old) ;;
  store_access_key (py "nonce") new ;;;
  (* block_hash = self._provider.get_status()['sync_info']['latest_block_hash'] *)
  a <- get_self ;;
  status <- call CallGetStatus (get_status (_provider a)) ;;
  sync_info <- lift (py_getitem status (py "sync_info")) ;;
  block_hash <- lift (py_getitem sync_info (py "latest_block_hash")) ;;
  (* block_hash = base58.b58decode(block_hash.encode('utf8')) *)
  encoded <- lift (py_encode_utf8 block_hash) ;;
  block_hash <- call_pure (CallB58Decode encoded) (b58decode encoded) ;;
  (* serialized_tx = transactions.sign_and_serialize_transaction(...) *)
  a <- get_self ;;
  nonce <- lift (py_getitem (_access_key a) (py "nonce")) ;;
  serialized_tx <-
    call (CallSign receiver_id nonce actions block_hash (_signer a))
         (sign_and_serialize_transaction receiver_id nonce actions block_hash
            (_signer a)) ;;
  (* result = self._provider.send_tx(serialized_tx) *)
  a <- get_self ;;
  result <- call (CallSendTx serialized_tx)
                 (send_tx (_provider a) serialized_tx) ;;
  (* if (len(result) == 44): raise TransactionError(f'...') *)
  n <- lift (py_len result) ;;
  if n =? 44 then
    raise (TransactionError (Formatted result))
  else
    ret result.

(** [Account.fetch_state] *)
Definition fetch_state : M unit :=
  a <- get_self ;;
  v <- call (CallGetAccount (_account_id a))
            (get_account (_provider a) (_account_id a)) ;;
  a <- get_self ;;
  put_self (set_account v a).

(** [Account.view_function] *)
Definition view_function (contract_id method_name : pystr) (args : PyVal)
    : M PyVal :=
  (* result = self._provider.view_call(contract_id, method_name,
                                       json.dumps(args).encode('utf8')) *)
  a <- get_self ;;
  text <- call_pure (CallJsonDumps args) (json_dumps args) ;;
  encoded <- lift (utf8_encode text) ;;
  result <- call (CallViewCall contract_id method_name encoded)
                 (view_call (_provider a) contract_id method_name encoded) ;;
  (* if "error" in result: raise ViewFunctionError(result["error"]) *)
  has_error <- lift (py_contains (py "error") result) ;;
  if (has_error : bool) then
    message <- lift (py_getitem result (py "error")) ;;
    raise (ViewFunctionError (Payload message))
  else
    (* result["result"] = json.loads(''.join([chr(x) for x in result["result"]])) *)
    data <- lift (py_getitem result (py "result")) ;;
    items <- lift (py_iter data) ;;
    chars <- lift (chr_all items) ;;
    value <- call_pure (CallJsonLoads (py_join chars))
                       (json_loads (py_join chars)) ;;
    result <- lift (py_setitem result (py "result") value) ;;
    ret result.

(** *** The public operations

    Each comes in a blocking and a non-blocking variant.  The default values
    of [gas] ([DEFAULT_ATTACHED_GAS]), [amount] ([0]) and [init_method_name]
    (["new"]) are supplied by the caller here. *)

(** [json.dumps(args).encode('utf8')] *)
Definition dump_args (args : PyVal) : M pybytes :=
  text <- call_pure (CallJsonDumps args) (json_dumps args) ;;
  lift (utf8_encode text).

(** [[...] if public_key is not None else []] *)
Definition full_access_key_if_given (public_key : PyVal) : list Action :=
  match public_key with
  | PNone => []
  | _ => [create_full_access_key_action public_key]
  end.

Definition send_money (account_id : pystr) (amount : PyVal) : M PyVal :=
  _sign_and_submit_tx account_id [create_transfer_action amount].

Definition send_money_async (account_id : pystr) (amount : PyVal) : M PyVal :=
  _sign_and_submit_tx_async account_id [create_transfer_action amount].

Definition function_call (contract_id method_name : pystr) (args : PyVal)
    (gas amount : PyVal) : M PyVal :=
  args <- dump_args args ;;
  _sign_and_submit_tx contract_id
    [create_function_call_action method_name args gas amount].

Definition function_call_async (contract_id method_name : pystr)
    (args : PyVal) (gas amount : PyVal) : M PyVal :=
  args <- dump_args args ;;
  _sign_and_submit_tx_async contract_id
    [create_function_call_action method_name args gas amount].

Definition create_account (account_id : pystr)
    (public_key initial_balance : PyVal) : M PyVal :=
  _sign_and_submit_tx account_id
    [create_create_account_action;
     create_full_access_key_action public_key;
     create_transfer_action initial_balance].

Definition create_account_async (account_id : pystr)
    (public_key initial_balance : PyVal) : M PyVal :=
  _sign_and_submit_tx_async account_id
    [create_create_account_action;
     create_full_access_key_action public_key;
     create_transfer_action initial_balance].

Definition delete_account (beneficiary_id : pystr) : M PyVal :=
  a <- get_self ;;
  _sign_and_submit_tx (_account_id a)
    [create_delete_account_action beneficiary_id].

Definition delete_account_async (beneficiary_id : pystr) : M PyVal :=
  a <- get_self ;;
  _sign_and_submit_tx_async (_account_id a)
    [create_delete_account_action beneficiary_id].

Definition create_full_access_key (public_key : PyVal) : M PyVal :=
  a <- get_self ;;
  _sign_and_submit_tx (_account_id a)
    [create_full_access_key_action public_key].

Definition create_full_access_key_async (public_key : PyVal) : M PyVal :=
  a <- get_self ;;
  _sign_and_submit_tx_async (_account_id a)
    [create_full_access_key_action public_key].

Definition delete_access_key (public_key : PyVal) : M PyVal :=
  a <- get_self ;;
  _sign_and_submit_tx (_account_id a)
    [create_delete_access_key_action public_key].

Definition delete_access_key_async (public_key : PyVal) : M PyVal :=
  a <- get_self ;;
  _sign_and_submit_tx_async (_account_id a)
    [create_delete_access_key_action public_key].

Definition deploy_contract (contract_code : PyVal) : M PyVal :=
  a <- get_self ;;
  _sign_and_submit_tx (_account_id a)
    [create_deploy_contract_action contract_code].

Definition deploy_contract_async (contract_code : PyVal) : M PyVal :=
  a <- get_self ;;
  _sign_and_submit_tx_async (_account_id a)
    [create_deploy_contract_action contract_code].

Definition deploy_and_init_contract (contract_code args gas : PyVal)
    (init_method_name : pystr) : M PyVal :=
  args <- dump_args args ;;
  a <- get_self ;;
  _sign_and_submit_tx (_account_id a)
    [create_deploy_contract_action contract_code;
     create_function_call_action init_method_name args gas (PInt 0)].

Definition deploy_and_init_contract_async (contract_code args gas : PyVal)
    (init_method_name : pystr) : M PyVal :=
  args <- dump_args args ;;
  a <- get_self ;;
  _sign_and_submit_tx_async (_account_id a)
    [create_deploy_contract_action contract_code;
     create_function_call_action init_method_name args gas (PInt 0)].

Definition stake (public_key amount : PyVal) : M PyVal :=
  a <- get_self ;;
  _sign_and_submit_tx (_account_id a)
    [create_staking_action public_key amount].

Definition stake_async (public_key amount : PyVal) : M PyVal :=
  a <- get_self ;;
  _sign_and_submit_tx_async (_account_id a)
    [create_staking_action public_key amount].

Definition create_and_deploy_contract (contract_id : pystr)
    (public_key contract_code initial_balance : PyVal) : M PyVal :=
  _sign_and_submit_tx contract_id
    ([create_create_account_action;
      create_transfer_action initial_balance;
      create_deploy_contract_action contract_code]
     ++ full_access_key_if_given public_key).

Definition create_and_deploy_contract_async (contract_id : pystr)
    (public_key contract_code initial_balance : PyVal) : M PyVal :=
  _sign_and_submit_tx_async contract_id
    ([create_create_account_action;
      create_transfer_action initial_balance;
      create_deploy_contract_action contract_code]
     ++ full_access_key_if_given public_key).

Definition create_deploy_and_init_contract (contract_id : pystr)
    (public_key contract_code initial_balance args gas : PyVal)
    (init_method_name : pystr) : M PyVal :=
  args <- dump_args args ;;
  _sign_and_submit_tx contract_id
    ([create_create_account_action;
      create_transfer_action initial_balance;
      create_deploy_contract_action contract_code;
      create_function_call_action init_method_name args gas (PInt 0)]
     ++ full_access_key_if_given public_key).

Definition create_deploy_and_init_contract_async (contract_id : pystr)
    (public_key contract_code initial_balance args gas : PyVal)
    (init_method_name : pystr) : M PyVal :=
  args <- dump_args args ;;
  _sign_and_submit_tx_async contract_id
    ([create_create_account_action;
      create_transfer_action initial_balance;
      create_deploy_contract_action contract_code;
      create_function_call_action init_method_name args gas (PInt 0)]
     ++ full_access_key_if_given public_key).

(** *** The read-only properties *)

(** [Account.account_id] *)
Definition account_id : M pystr :=
  a <- get_self ;; ret (_account_id a).

(** [Account.signer] *)
Definition signer : M Signer :=
  a <- get_self ;; ret (_signer a).

(** [Account.provider] *)
Definition provider : M JsonProvider :=
  a <- get_self ;; ret (_provider a).

(** [Account.access_key] *)
Definition access_key : M PyVal :=
  a <- get_self ;; ret (_access_key a).

(** [Account.state] *)
Definition state : M PyVal :=
  a <- get_self ;; ret (_account a).

End Model.

Arguments JsonProvider World : clear implicits.
Arguments Externals World Signer Action : clear implicits.
Arguments Account World Signer : clear implicits.
Arguments Event Signer Action : clear implicits.
Arguments State World Signer : clear implicits.
Arguments mkOut {World Signer Action A} _ _ _.
Arguments res {World Signer Action A} _.
Arguments final {World Signer Action A} _.
Arguments trace {World Signer Action A} _.

(** ** Vocabulary of the properties *)

Section Vocabulary.

Context {World Signer Action : Type} `{Ext : Externals World Signer Action}.

Local Abbreviation Comp := (@M World Signer Action).

Local Notation "x <- m ;; k" := (bind m (fun x => k))
  (at level 90, m at next level, right associativity).
Local Notation "m ;;; k" := (bind m (fun _ => k))
  (at level 90, right associativity).

(** The encoded text of the block hash in a status reply:
    [status['sync_info']['latest_block_hash'].encode('utf8')]. *)
Definition block_hash_text (status : PyVal) : Result pybytes :=
  match py_getitem status (py "sync_info") with
  | Raise e => Raise e
  | Ok sync_info =>
      match py_getitem sync_info (py "latest_block_hash") with
      | Raise e => Raise e
      | Ok block_hash => py_encode_utf8 block_hash
      end
  end.

(** The transaction assembly both submission methods start with: the nonce
    increment, the block hash, the signed and serialized transaction. *)
Definition assemble (receiver_id : pystr) (actions : list Action)
    : Comp pybytes :=
  a <- get_self ;;
  old <- lift (py_getitem (_access_key a) (py "nonce")) ;;
  new <- lift (py_add1 old) ;;
  store_access_key (py "nonce") new ;;;
  a <- get_self ;;
  status <- call CallGetStatus (get_status (_provider a)) ;;
  sync_info <- lift (py_getitem status (py "sync_info")) ;;
  block_hash <- lift (py_getitem sync_info (py "latest_block_hash")) ;;
  encoded <- lift (py_encode_utf8 block_hash) ;;
  block_hash <- call_pure (CallB58Decode encoded) (b58decode encoded) ;;
  a <- get_self ;;
  nonce <- lift (py_getitem (_access_key a) (py "nonce")) ;;
  call (CallSign receiver_id nonce actions block_hash (_signer a))
       (sign_and_serialize_transaction receiver_id nonce actions block_hash
          (_signer a)).

(** What [_sign_and_submit_tx] does with the assembled transaction: send it
    and wait, print the logs, classify the status. *)
Definition wait_and_classify (serialized_tx : pybytes) : Comp PyVal :=
  a <- get_self ;;
  result <- call (CallSendTxAndWait serialized_tx 10)
                 (send_tx_and_wait (_provider a) serialized_tx 10) ;;
  transaction_outcome <- lift (py_getitem result (py "transaction_outcome")) ;;
  receipts_outcome <- lift (py_getitem result (py "receipts_outcome")) ;;
  print_logs transaction_outcome ;;;
  outcomes <- lift (py_iter receipts_outcome) ;;
  for_each outcomes print_logs ;;;
  status <- lift (py_getitem result (py "status")) ;;
  failed <- lift (py_contains (py "Failure") status) ;;
  if (failed : bool) then
    status <- lift (py_getitem result (py "status")) ;;
    payload <- lift (py_getitem status (py "Failure")) ;;
    raise (TransactionError (Payload payload))
  else
    ret result.

(** What [_sign_and_submit_tx_async] does with the assembled transaction:
    send it and look at the length of the reply. *)
Definition fire (serialized_tx : pybytes) : Comp PyVal :=
  a <- get_self ;;
  result <- call (CallSendTx serialized_tx)
                 (send_tx (_provider a) serialized_tx) ;;
  n <- lift (py_len result) ;;
  if n =? 44 then
    raise (TransactionError (Formatted result))
  else
    ret result.

(** The nonce held by an account, when its access key is a mapping with an
    integer under ["nonce"]. *)
Definition nonce_of (a : Account World Signer) : option Z :=
  match _access_key a with
  | PDict d => match d !! py "nonce" with
               | Some (PInt n) => Some n
               | _ => None
               end
  | _ => None
  end.

(** The nonces handed to [sign_and_serialize_transaction] in a trace. *)
Definition signed_nonces (t : list (Event Signer Action)) : list PyVal :=
  omap (fun ev => match ev with
                  | CallSign _ nonce _ _ _ => Some nonce
                  | _ => None
                  end) t.

(** The values stored under ["nonce"] in a trace. *)
Definition nonce_stores (t : list (Event Signer Action)) : list PyVal :=
  omap (fun ev => match ev with
                  | StoreAccessKey key v =>
                      if bool_decide (key = py "nonce") then Some v else None
                  | _ => None
                  end) t.

(** The lines printed in a trace. *)
Definition printed (t : list (Event Signer Action)) : list PyVal :=
  omap (fun ev => match ev with
                  | Print log => Some log
                  | _ => None
                  end) t.

(** The transactions handed to the provider for submission in a trace. *)
Definition submitted (t : list (Event Signer Action)) : list pybytes :=
  omap (fun ev => match ev with
                  | CallSendTx tx => Some tx
                  | CallSendTxAndWait tx _ => Some tx
                  | _ => None
                  end) t.

(** Events of the submission path: a store into the access key, a block-hash
    fetch or decoding, a signature, a submission. *)
Definition is_submission_event (ev : Event Signer Action) : bool :=
  match ev with
  | StoreAccessKey _ _ | CallGetStatus | CallB58Decode _
  | CallSign _ _ _ _ _ | CallSendTx _ | CallSendTxAndWait _ _ => true
  | _ => false
  end.

Definition is_json_loads (ev : Event Signer Action) : bool :=
  match ev with
  | CallJsonLoads _ => true
  | _ => false
  end.

(** The log lines of one outcome: [outcome['outcome']['logs']], iterated. *)
Definition outcome_logs (outcome : PyVal) : Result (list PyVal) :=
  match py_getitem outcome (py "outcome") with
  | Raise e => Raise e
  | Ok inner =>
      match py_getitem inner (py "logs") with
      | Raise e => Raise e
      | Ok logs => py_iter logs
      end
  end.

(** The log lines of the receipt outcomes up to the first one that has none
    to offer, and how the loop over them ends. *)
Fixpoint receipts_logs (outcomes : list PyVal) : list PyVal * Result unit :=
  match outcomes with
  | [] => ([], Ok tt)
  | outcome :: rest =>
      match outcome_logs outcome with
      | Raise e => ([], Raise e)
      | Ok logs => let (more, r) := receipts_logs rest in (logs ++ more, r)
      end
  end.

(** The lines the loop over
    [itertools.chain([result['transaction_outcome']], result['receipts_outcome'])]
    prints, and how it ends. *)
Definition tree_logs (result : PyVal) : list PyVal * Result unit :=
  match py_getitem result (py "transaction_outcome") with
  | Raise e => ([], Raise e)
  | Ok transaction_outcome =>
      match py_getitem result (py "receipts_outcome") with
      | Raise e => ([], Raise e)
      | Ok receipts_outcome =>
          match outcome_logs transaction_outcome with
          | Raise e => ([], Raise e)
          | Ok logs =>
              match py_iter receipts_outcome with
              | Raise e => (logs, Raise e)
              | Ok outcomes =>
                  let (more, r) := receipts_logs outcomes in (logs ++ more, r)
              end
          end
      end
  end.

(** The last three lines of [_sign_and_submit_tx]. *)
Definition classify (result : PyVal) : Result PyVal :=
  match py_getitem result (py "status") with
  | Raise e => Raise e
  | Ok status =>
      match py_contains (py "Failure") status with
      | Raise e => Raise e
      | Ok true =>
          match py_getitem status (py "Failure") with
          | Raise e => Raise e
          | Ok payload => Raise (TransactionError (Payload payload))
          end
      | Ok false => Ok result
      end
  end.

(** The last four lines of [_sign_and_submit_tx_async]. *)
Definition check_handle (result : PyVal) : Result PyVal :=
  match py_len result with
  | Raise e => Raise e
  | Ok n => if n =? 44 then Raise (TransactionError (Formatted result))
            else Ok result
  end.

(** An outcome whose logs are the list [logs]. *)
Definition has_logs (outcome : PyVal) (logs : list PyVal) : Prop :=
  exists inner,
    py_getitem outcome (py "outcome") = Ok inner /\
    py_getitem inner (py "logs") = Ok (PList logs).

(** An outcome tree: a transaction outcome with logs [tx_logs] and a list of
    receipt outcomes, the [i]-th with logs [receipt_logs !! i]. *)
Definition is_outcome_tree (result : PyVal) (tx_logs : list PyVal)
    (receipt_logs : list (list PyVal)) : Prop :=
  exists transaction_outcome receipts,
    py_getitem result (py "transaction_outcome") = Ok transaction_outcome /\
    py_getitem result (py "receipts_outcome") = Ok (PList receipts) /\
    has_logs transaction_outcome tx_logs /\
    Forall2 has_logs receipts receipt_logs.

(** A submission through one of the two protocols. *)
Inductive Submission : Type :=
| Sync (receiver_id : pystr) (actions : list Action)
| Async (receiver_id : pystr) (actions : list Action).

Definition submit (sub : Submission) : Comp PyVal :=
  match sub with
  | Sync receiver_id actions => _sign_and_submit_tx receiver_id actions
  | Async receiver_id actions => _sign_and_submit_tx_async receiver_id actions
  end.

Definition receiver_of (sub : Submission) : pystr :=
  match sub with
  | Sync receiver_id _ | Async receiver_id _ => receiver_id
  end.

Definition actions_of (sub : Submission) : list Action :=
  match sub with
  | Sync _ actions | Async _ actions => actions
  end.

(** Events of the transaction assembly. *)
Definition is_assembly_event (ev : Event Signer Action) : bool :=
  match ev with
  | StoreAccessKey _ _ | CallGetStatus | CallB58Decode _
  | CallSign _ _ _ _ _ => true
  | _ => false
  end.

(** The assembly of a transaction from state [s], whose nonce is [n], fails
    with [e] after the increment: in the status request, in reading the block
    hash out of the reply, in decoding it, or in signing. *)
Inductive assembly_fails (sub : Submission) (s : State World Signer) (n : Z)
    (e : Exn) : Prop :=
| status_request_fails w1 :
    get_status (_provider (self s)) (world s) = (Raise e, w1) ->
    assembly_fails sub s n e
| block_hash_missing status w1 :
    get_status (_provider (self s)) (world s) = (Ok status, w1) ->
    block_hash_text status = Raise e ->
    assembly_fails sub s n e
| block_hash_malformed status w1 encoded :
    get_status (_provider (self s)) (world s) = (Ok status, w1) ->
    block_hash_text status = Ok encoded ->
    b58decode encoded = Raise e ->
    assembly_fails sub s n e
| signing_fails status w1 encoded block_hash w2 :
    get_status (_provider (self s)) (world s) = (Ok status, w1) ->
    block_hash_text status = Ok encoded ->
    b58decode encoded = Ok block_hash ->
    sign_and_serialize_transaction (receiver_of sub) (PInt (n + 1))
      (actions_of sub) block_hash (_signer (self s)) w1 = (Raise e, w2) ->
    assembly_fails sub s n e.

(** The text [view_function] hands to [json.loads]:
    [''.join([chr(x) for x in result["result"]])]. *)
Definition view_text (result : PyVal) : Result pystr :=
  match py_getitem result (py "result") with
  | Raise e => Raise e
  | Ok data =>
      match py_iter data with
      | Raise e => Raise e
      | Ok items =>
          match chr_all items with
          | Raise e => Raise e
          | Ok chars => Ok (py_join chars)
          end
      end
  end.

(** What a submission does once the transaction is assembled. *)
Definition send_step (sub : Submission) : pybytes -> Comp PyVal :=
  match sub with
  | Sync _ _ => wait_and_classify
  | Async _ _ => fire
  end.

(** Submissions issued one at a time against the same account: each starts
    in the state the previous one left, whether it returned or raised. *)
Fixpoint run_all (subs : list Submission) (s : State World Signer)
    : list (Out PyVal) :=
  match subs with
  | [] => []
  | sub :: rest => let o := submit sub s in o :: run_all rest (final o)
  end.

(** The first line of both submission methods, on the access key alone:
    [access_key["nonce"] += 1] yields the value stored and the updated
    object. *)
Definition incremented (access_key : PyVal) : Result (PyVal * PyVal) :=
  match py_getitem access_key (py "nonce") with
  | Raise e => Raise e
  | Ok old =>
      match py_add1 old with
      | Raise e => Raise e
      | Ok new =>
          match py_setitem access_key (py "nonce") new with
          | Raise e => Raise e
          | Ok updated => Ok (new, updated)
          end
      end
  end.

(** An event that, if it is a call of [sign_and_serialize_transaction], is
    one for this receiver, nonce, action list and signer. *)
Definition signs_only (receiver_id : pystr) (nonce : PyVal)
    (actions : list Action) (who : Signer) (ev : Event Signer Action)
    : Prop :=
  match ev with
  | CallSign r n a _ g => r = receiver_id /\ n = nonce /\ a = actions /\ g = who
  | _ => True
  end.

(** The state in which a series of submissions issued one at a time leaves
    the account and the world. *)
Fixpoint run_to_end (subs : list Submission) (s : State World Signer)
    : State World Signer :=
  match subs with
  | [] => s
  | sub :: rest => run_to_end rest (final (submit sub s))
  end.

(** A number, as [+= 1] and [chr] take it: an [int] or a [bool]. *)
Definition is_number (v : PyVal) : bool :=
  match v with
  | PInt _ | PBool _ => true
  | _ => false
  end.

(** The six operations that serialize their arguments before they submit,
    applied to the same arguments. *)
Definition operations_with_args (contract_id method_name : pystr)
    (public_key contract_code initial_balance args gas amount : PyVal)
    : list (Comp PyVal) :=
  [function_call contract_id method_name args gas amount;
   function_call_async contract_id method_name args gas amount;
   deploy_and_init_contract contract_code args gas method_name;
   deploy_and_init_contract_async contract_code args gas method_name;
   create_deploy_and_init_contract contract_id public_key contract_code
     initial_balance args gas method_name;
   create_deploy_and_init_contract_async contract_id public_key
     contract_code initial_balance args gas method_name].

End Vocabulary.

Arguments Submission Action : clear implicits.

(** ** Reference collaborators

    Small stand-ins for the collaborators, used to run the methods on
    concrete inputs: a base58 decoder, a JSON codec for scalars, a signer that
    lays its arguments out in a byte string, and a provider that answers from
    a script and keeps the transactions it was sent. *)

Definition b58_alphabet : pystr :=
  py "123456789ABCDEFGHJKLMNPQRSTUVWXYZabcdefghijkmnopqrstuvwxyz".

Fixpoint index_in (c : Z) (cs : list Z) : option Z :=
  match cs with
  | [] => None
  | x :: rest => if x =? c then Some 0 else Z.succ <$> index_in c rest
  end.

(** The number spelled by base58 digits, most significant first. *)
Fixpoint b58decode_int (acc : Z) (v : pybytes) : Result Z :=
  match v with
  | [] => Ok acc
  | c :: rest =>
      match index_in c b58_alphabet with
      | None => Raise ValueError
      | Some digit => b58decode_int (acc * 58 + digit) rest
      end
  end.

(** [acc.to_bytes(n, 'big')] *)
Fixpoint to_bytes_big (n : nat) (acc : Z) : pybytes :=
  match n with
  | O => []
  | S n' => to_bytes_big n' (acc / 256) ++ [acc mod 256]
  end.

(** [(acc.bit_length() + 7) // 8] *)
Definition byte_length (acc : Z) : nat :=
  if acc <=? 0 then O else Z.to_nat ((Z.log2 acc + 8) / 8).

Fixpoint leading_ones (v : pybytes) : nat :=
  match v with
  | 49 :: rest => S (leading_ones rest)
  | _ => O
  end.

(** [base58.b58decode] with the Bitcoin alphabet: each leading ['1'] is a zero
    byte, the rest is a big-endian number. *)
Definition ref_b58decode (v : pybytes) : Result pybytes :=
  let zeros := leading_ones v in
  match b58decode_int 0 (drop zeros v) with
  | Raise e => Raise e
  | Ok acc => Ok (to_bytes_big (zeros + byte_length acc) acc)
  end.

Definition string_of_pystr (s : pystr) : string :=
  string_of_list_ascii ((λ c, ascii_of_N (Z.to_N c)) <$> s).

Definition json_error : Exn := CollaboratorError (PStr (py "JSONDecodeError")).

(** [json.loads] on the scalars [null], [true], [false] and the decimal
    integers; any other text is reported as malformed. *)
Definition ref_json_loads (text : pystr) : Result PyVal :=
  if bool_decide (text = py "null") then Ok PNone
  else if bool_decide (text = py "true") then Ok (PBool true)
  else if bool_decide (text = py "false") then Ok (PBool false)
  else if forallb (λ c, (48 <=? c) && (c <=? 57)) text then
    match NilEmpty.uint_of_string (string_of_pystr text) with
    | Some (Decimal.Nil) | None => Raise json_error
    | Some d => Ok (PInt (Z.of_uint d))
    end
  else Raise json_error.

(** [json.dumps] on [None], the booleans and the natural numbers. *)
Definition ref_json_dumps (v : PyVal) : Result pystr :=
  match v with
  | PNone => Ok (py "null")
  | PBool true => Ok (py "true")
  | PBool false => Ok (py "false")
  | PInt z =>
      if 0 <=? z then Ok (py (NilZero.string_of_uint (N.to_uint (Z.to_N z))))
      else Raise TypeError
  | _ => Raise TypeError
  end.

(** The actions, as plain descriptors. *)
Inductive RefAction : Type :=
| Transfer (amount : PyVal)
| FunctionCall (method_name : pystr) (args : pybytes) (gas amount : PyVal)
| CreateAccount
| AddFullAccessKey (public_key : PyVal)
| DeleteKey (public_key : PyVal)
| DeleteAccount (beneficiary_id : pystr)
| DeployContract (code : PyVal)
| Stake (public_key amount : PyVal).

(** The node of the examples keeps the transactions it received, newest
    first. *)
Abbreviation RefWorld := (list pybytes) (only parsing).

(** A signer is known by its public key. *)
Abbreviation RefSigner := PyVal (only parsing).

(** A serializer that lays out the receiver, the number of actions, the nonce
    and the block hash; it wants an integer nonce. *)
Definition ref_sign (receiver_id : pystr) (nonce : PyVal)
    (actions : list RefAction) (block_hash : pybytes) (signer : RefSigner)
    (w : RefWorld) : Result pybytes * RefWorld :=
  match nonce with
  | PInt n => (Ok (receiver_id ++ [Z.of_nat (length actions); n mod 256]
                     ++ block_hash), w)
  | _ => (Raise TypeError, w)
  end.

#[export] Instance ref_externals : Externals RefWorld RefSigner RefAction := {|
  sign_and_serialize_transaction := ref_sign;
  encoded_public_key := fun signer => Ok signer;
  b58decode := ref_b58decode;
  json_dumps := ref_json_dumps;
  json_loads := ref_json_loads;
  create_transfer_action := Transfer;
  create_function_call_action := FunctionCall;
  create_create_account_action := CreateAccount;
  create_full_access_key_action := AddFullAccessKey;
  create_delete_access_key_action := DeleteKey;
  create_delete_account_action := DeleteAccount;
  create_deploy_contract_action := DeployContract;
  create_staking_action := Stake
|}.

Definition dict (entries : list (string * PyVal)) : PyVal :=
  PDict (list_to_map ((λ kv, (py kv.1, kv.2)) <$> entries)).

(** A provider that answers [get_status] with [status] and every submission
    and view call with [reply]. *)
Definition scripted_node (status reply : Result PyVal)
    : JsonProvider RefWorld := {|
  get_account := fun _ w => (Ok (dict [("amount", PStr (py "100"))]), w);
  get_access_key := fun _ _ w =>
    (Ok (dict [("nonce", PInt 5); ("permission", PStr (py "FullAccess"))]), w);
  get_status := fun w => (status, w);
  send_tx := fun tx w => (reply, tx :: w);
  send_tx_and_wait := fun tx _ w => (reply, tx :: w);
  view_call := fun _ _ _ w => (reply, w)
|}.

(** A status reply whose latest block hash is the base58 text of
    [b"hello world"]. *)
Definition status_reply : PyVal :=
  dict [("sync_info",
         dict [("latest_block_hash", PStr (py "StV1DL6CwTryKyV"))])].

Definition outcome (logs : list string) : PyVal :=
  dict [("outcome", dict [("logs", PList ((λ l, PStr (py l)) <$> logs))])].

(** An outcome tree with three outcomes and the given status. *)
Definition outcome_tree (status : PyVal) : PyVal :=
  dict [("status", status);
        ("transaction_outcome", outcome ["sent"]);
        ("receipts_outcome",
         PList [outcome ["r1 a"; "r1 b"]; outcome []; outcome ["r3"]])].

Definition success_tree : PyVal :=
  outcome_tree (dict [("SuccessValue", PStr (py ""))]).

Definition failure_payload : PyVal :=
  dict [("ActionError", dict [("index", PInt 0)])].

Definition failure_tree : PyVal :=
  outcome_tree (dict [("Failure", failure_payload)]).

(** A transaction hash as the node returns it: 44 base58 characters. *)
Definition tx_hash : PyVal :=
  PStr (py "6zgh2u9DqHHiXzdy9ouTP7oGky2T4nugqzqt9wJZwNFm").

(** alice, as constructed from the scripted node: nonce 5. *)
Definition alice (provider : JsonProvider RefWorld)
    : Account RefWorld RefSigner :=
  mkAccount provider (PStr (py "ed25519:alice")) (py "alice")
    (dict [("amount", PStr (py "100"))])
    (dict [("nonce", PInt 5); ("permission", PStr (py "FullAccess"))]).

Definition start (provider : JsonProvider RefWorld)
    : State RefWorld RefSigner :=
  mkState [] (alice provider).

(** Nodes for the scenarios: one that finalizes every transaction, one that
    reports an execution failure, one that cannot be reached for its status,
    one that answers [send_tx] with a transaction hash. *)
Definition good_node : JsonProvider RefWorld :=
  scripted_node (Ok status_reply) (Ok success_tree).

Definition failing_node : JsonProvider RefWorld :=
  scripted_node (Ok status_reply) (Ok failure_tree).

Definition unreachable : Exn := CollaboratorError (PStr (py "timeout")).

Definition offline_node : JsonProvider RefWorld :=
  scripted_node (Raise unreachable) (Ok success_tree).

Definition async_node : JsonProvider RefWorld :=
  scripted_node (Ok status_reply) (Ok tx_hash).

(** Nodes answering a view call with an error, and with the bytes of
    ["Hello"]. *)
Definition view_error_reply : gmap pystr PyVal :=
  {[ py "error" := PStr (py "wasm execution failed") ]}.

Definition hello_reply : gmap pystr PyVal :=
  {[ py "result" := PList (PInt <$> [72; 101; 108; 108; 111]);
     py "logs" := PList [] ]}.

Definition view_error_node : JsonProvider RefWorld :=
  scripted_node (Ok status_reply) (Ok (PDict view_error_reply)).

Definition hello_node : JsonProvider RefWorld :=
  scripted_node (Ok status_reply) (Ok (PDict hello_reply)).

(** The transaction the reference signer builds for a transfer to bob with
    nonce 6 on the block [b"hello world"]. *)
Definition bob_tx : pybytes :=
  py "bob" ++ [1; 6] ++ py "hello world".

Definition to_bob : list RefAction := [Transfer (PInt 100)].

(** Three submissions in a row, the second one asynchronous. *)
Definition three_submissions : list (Submission RefAction) :=
  [Sync (py "bob") to_bob;
   Async (py "contract")
     [FunctionCall (py "set_value") (py "1") (PInt DEFAULT_ATTACHED_GAS)
        (PInt 0)];
   Sync (py "bob") to_bob].

(** An account like alice with another access key, and the states it starts
    in. *)
Definition alice_with_key (key : PyVal) (provider : JsonProvider RefWorld)
    : Account RefWorld RefSigner :=
  mkAccount provider (PStr (py "ed25519:alice")) (py "alice")
    (dict [("amount", PStr (py "100"))]) key.

Definition no_nonce_key : gmap pystr PyVal :=
  {[ py "permission" := PStr (py "FullAccess") ]}.

Definition text_nonce_key : gmap pystr PyVal :=
  {[ py "nonce" := PStr (py "5"); py "permission" := PStr (py "FullAccess") ]}.

Definition alice_key : gmap pystr PyVal :=
  {[ py "nonce" := PInt 5; py "permission" := PStr (py "FullAccess") ]}.

(** Responses the synchronous method cannot read to the end: one without
    outcomes, one whose second receipt has no logs, one whose status is a
    bare string. *)
Definition bare_status_reply : gmap pystr PyVal :=
  {[ py "status" := dict [("Failure", failure_payload)] ]}.

Definition broken_tree : PyVal :=
  dict [("status", dict [("Failure", failure_payload)]);
        ("transaction_outcome", outcome ["sent"]);
        ("receipts_outcome",
         PList [outcome ["r1 a"; "r1 b"]; dict [("id", PInt 2)];
                outcome ["r3"]])].

Definition string_status_tree : PyVal := outcome_tree (PStr (py "Failure")).

(** An outcome tree whose status is the string of a transaction that has
    not started. *)
Definition not_started_tree : PyVal := outcome_tree (PStr (py "NotStarted")).

Definition pending_node : JsonProvider RefWorld :=
  scripted_node (Ok status_reply) (Ok not_started_tree).

Definition bare_node : JsonProvider RefWorld :=
  scripted_node (Ok status_reply) (Ok (PDict bare_status_reply)).

Definition broken_node : JsonProvider RefWorld :=
  scripted_node (Ok status_reply) (Ok broken_tree).

Definition string_status_node : JsonProvider RefWorld :=
  scripted_node (Ok status_reply) (Ok string_status_tree).

(** A node that raises on a submission. *)
Definition dropping_node : JsonProvider RefWorld :=
  scripted_node (Ok status_reply) (Raise unreachable).

(** A node that answers a submission with [null]. *)
Definition silent_node : JsonProvider RefWorld :=
  scripted_node (Ok status_reply) (Ok PNone).

(** View-call replies: one without a result, one with a negative code, one
    with the two UTF-8 bytes of an accented letter. *)
Definition empty_reply : gmap pystr PyVal :=
  {[ py "logs" := PList [] ]}.

Definition negative_reply : gmap pystr PyVal :=
  {[ py "result" := PList ((PInt <$> [72]) ++ PInt (-1) :: [PInt 105]) ]}.

Definition accent_reply : gmap pystr PyVal :=
  {[ py "result" := PList (PInt <$> [34; 195; 169; 34]) ]}.

Definition empty_view_node : JsonProvider RefWorld :=
  scripted_node (Ok status_reply) (Ok (PDict empty_reply)).

Definition negative_view_node : JsonProvider RefWorld :=
  scripted_node (Ok status_reply) (Ok (PDict negative_reply)).

(** A view-call reply with a number that does not fit a C [int]. *)
Definition overflow_reply : gmap pystr PyVal :=
  {[ py "result" := PList ((PInt <$> [72]) ++ PInt 2147483648 :: []) ]}.

Definition overflow_view_node : JsonProvider RefWorld :=
  scripted_node (Ok status_reply) (Ok (PDict overflow_reply)).

Definition accent_view_node : JsonProvider RefWorld :=
  scripted_node (Ok status_reply) (Ok (PDict accent_reply)).

(** * Properties *)

Section Properties.

Context {World Signer Action : Type} `{Ext : Externals World Signer Action}.

Local Abbreviation Comp := (@M World Signer Action).

Implicit Types (s : State World Signer) (d : gmap pystr PyVal) (n : Z).
Implicit Types (tx : pybytes) (actions : list Action).
Implicit Types (sub : Submission Action) (subs : list (Submission Action)).

(** ** The monad *)

Lemma bind_assoc {A B C} (m : Comp A) (f : A -> Comp B) (g : B -> Comp C) s :
  bind (bind m f) g s = bind m (fun x => bind (f x) g) s.
Proof.
  unfold bind. destruct (m s) as [[a|e] s1 t1]; [|reflexivity].
  destruct (f a s1) as [[b|e] s2 t2]; [|reflexivity].
  destruct (g b s2) as [r s3 t3]. by rewrite app_assoc.
Qed.

Lemma bind_ext {A B} (m : Comp A) (f g : A -> Comp B) s :
  (forall a s', f a s' = g a s') -> bind m f s = bind m g s.
Proof.
  intros H. unfold bind. destruct (m s) as [[a|e] s1 t1]; [|reflexivity].
  by rewrite H.
Qed.

Ltac split_bind :=
  repeat (rewrite bind_assoc; apply bind_ext; intros ? ?); try reflexivity.

Lemma sync_split receiver_id actions s :
  _sign_and_submit_tx receiver_id actions s =
  bind (assemble receiver_id actions) wait_and_classify s.
Proof. unfold _sign_and_submit_tx, assemble, wait_and_classify. symmetry. split_bind. Qed.

Lemma async_split receiver_id actions s :
  _sign_and_submit_tx_async receiver_id actions s =
  bind (assemble receiver_id actions) fire s.
Proof. unfold _sign_and_submit_tx_async, assemble, fire. symmetry. split_bind. Qed.

Ltac run :=
  cbv [bind lift get_self put_self emit call call_pure ret raise
       store_access_key res final trace self world].

Ltac done_trace :=
  cbn; rewrite ?app_nil_r, ?fmap_app, <- ?app_assoc; reflexivity.

Lemma for_each_print (items : list PyVal) s :
  for_each items (fun log => emit (Print log)) s =
  mkOut (Action := Action) (Ok tt) s (Print <$> items).
Proof.
  induction items as [|x rest IH]; [reflexivity|].
  cbn [for_each]. unfold bind at 1. unfold emit at 1. by rewrite IH.
Qed.

Lemma print_logs_run (outcome : PyVal) s :
  print_logs outcome s =
  match outcome_logs outcome with
  | Ok logs => mkOut (Action := Action) (Ok tt) s (Print <$> logs)
  | Raise e => mkOut (Raise e) s []
  end.
Proof.
  unfold print_logs, outcome_logs.
  unfold bind at 1, lift at 1.
  destruct (py_getitem outcome (py "outcome")) as [inner|e]; [|reflexivity].
  unfold bind at 1, lift at 1.
  destruct (py_getitem inner (py "logs")) as [logs|e]; [|reflexivity].
  unfold bind at 1, lift at 1.
  destruct (py_iter logs) as [items|e]; [|reflexivity].
  by rewrite for_each_print.
Qed.

Lemma receipts_loop_run (outcomes : list PyVal) s :
  for_each outcomes print_logs s =
  mkOut (Action := Action) (receipts_logs outcomes).2 s
    (Print <$> (receipts_logs outcomes).1).
Proof.
  induction outcomes as [|o rest IH]; [reflexivity|].
  cbn [for_each receipts_logs]. unfold bind. rewrite print_logs_run.
  destruct (outcome_logs o) as [logs|e]; [|reflexivity].
  rewrite IH. destruct (receipts_logs rest) as [more r]; cbn.
  by rewrite fmap_app.
Qed.

Lemma wait_and_classify_run tx s :
  wait_and_classify tx s =
  match send_tx_and_wait (_provider (self s)) tx 10 (world s) with
  | (Raise e, w) =>
      mkOut (Action := Action) (Raise e) (mkState w (self s))
        [CallSendTxAndWait tx 10]
  | (Ok result, w) =>
      mkOut (match (tree_logs result).2 with
             | Raise e => Raise e
             | Ok _ => classify result
             end)
            (mkState w (self s))
            (CallSendTxAndWait tx 10 :: (Print <$> (tree_logs result).1))
  end.
Proof.
  unfold wait_and_classify.
  unfold bind at 1, get_self at 1. unfold bind at 1, call at 1.
  destruct (send_tx_and_wait _ _ _ _) as [[result|e] w]; [|reflexivity].
  unfold tree_logs, classify.
  unfold bind at 1, lift at 1.
  destruct (py_getitem result (py "transaction_outcome")) as [t|e]; [|reflexivity].
  unfold bind at 1, lift at 1.
  destruct (py_getitem result (py "receipts_outcome")) as [rs|e]; [|reflexivity].
  unfold bind at 1. rewrite print_logs_run.
  destruct (outcome_logs t) as [logs|e]; [|reflexivity].
  unfold bind at 1, lift at 1.
  destruct (py_iter rs) as [outs|e]; [|done_trace].
  unfold bind at 1. rewrite receipts_loop_run.
  destruct (receipts_logs outs) as [more [[]|e]]; cbn [fst snd];
    [|done_trace].
  unfold bind at 1, lift at 1.
  destruct (py_getitem result (py "status")) as [status|e];
    [|done_trace].
  unfold bind at 1, lift at 1.
  destruct (py_contains (py "Failure") status) as [[]|e];
    [| |done_trace].
  - unfold bind at 1, lift at 1.
    unfold bind at 1, lift at 1.
    destruct (py_getitem status (py "Failure")) as [payload|e];
      done_trace.
  - done_trace.
Qed.

Lemma fire_run tx s :
  fire tx s =
  match send_tx (_provider (self s)) tx (world s) with
  | (Raise e, w) =>
      mkOut (Action := Action) (Raise e) (mkState w (self s)) [CallSendTx tx]
  | (Ok result, w) =>
      mkOut (check_handle result) (mkState w (self s)) [CallSendTx tx]
  end.
Proof.
  unfold fire. unfold bind at 1, get_self at 1. unfold bind at 1, call at 1.
  destruct (send_tx _ _ _) as [[result|e] w]; [|reflexivity].
  unfold check_handle. unfold bind at 1, lift at 1.
  destruct (py_len result) as [n|e]; [|reflexivity].
  by destruct (n =? 44).
Qed.

Lemma store_access_key_run key (v : PyVal) s d :
  _access_key (self s) = PDict d ->
  store_access_key key v s =
  mkOut (Action := Action) (Ok tt)
    (mkState (world s) (set_access_key (PDict (<[key := v]> d)) (self s)))
    [StoreAccessKey key v].
Proof.
  intros Hk. unfold store_access_key.
  unfold bind at 1, get_self at 1. rewrite Hk. reflexivity.
Qed.

Lemma assemble_run receiver_id actions s d n :
  _access_key (self s) = PDict d ->
  d !! py "nonce" = Some (PInt n) ->
  assemble receiver_id actions s =
    let acct :=
      set_access_key (PDict (<[py "nonce" := PInt (n + 1)]> d)) (self s) in
    let store := StoreAccessKey (py "nonce") (PInt (n + 1)) in
    match get_status (_provider (self s)) (world s) with
    | (Raise e, w1) => mkOut (Raise e) (mkState w1 acct) [store; CallGetStatus]
    | (Ok status, w1) =>
        match block_hash_text status with
        | Raise e => mkOut (Raise e) (mkState w1 acct) [store; CallGetStatus]
        | Ok encoded =>
            match b58decode encoded with
            | Raise e =>
                mkOut (Raise e) (mkState w1 acct)
                  [store; CallGetStatus; CallB58Decode encoded]
            | Ok block_hash =>
                match sign_and_serialize_transaction receiver_id
                        (PInt (n + 1)) actions block_hash
                        (_signer (self s)) w1 with
                | (r, w2) =>
                    mkOut r (mkState w2 acct)
                      [store; CallGetStatus; CallB58Decode encoded;
                       CallSign receiver_id (PInt (n + 1)) actions block_hash
                         (_signer (self s))]
                end
            end
        end
    end.
Proof.
  intros Hk Hn. unfold assemble.
  unfold bind at 1, get_self at 1. rewrite Hk.
  unfold bind at 1, lift at 1. unfold py_getitem at 1. rewrite Hn.
  unfold bind at 1, lift at 1. cbn [py_add1].
  unfold bind at 1. rewrite (store_access_key_run _ _ _ d Hk).
  unfold bind at 1, get_self at 1. cbn [self world].
  unfold bind at 1, call at 1. cbn [self world set_access_key _provider].
  destruct (get_status _ _) as [[status|e] w1]; [|reflexivity].
  unfold block_hash_text.
  unfold bind at 1, lift at 1.
  destruct (py_getitem status (py "sync_info")) as [sync_info|e]; [|reflexivity].
  unfold bind at 1, lift at 1.
  destruct (py_getitem sync_info (py "latest_block_hash")) as [bh|e];
    [|reflexivity].
  unfold bind at 1, lift at 1.
  destruct (py_encode_utf8 bh) as [encoded|e]; [|reflexivity].
  unfold bind at 1, call_pure at 1.
  destruct (b58decode encoded) as [h|e]; [|reflexivity].
  unfold bind at 1, get_self at 1. cbn [self _access_key set_access_key].
  unfold bind at 1, lift at 1. unfold py_getitem at 1.
  rewrite lookup_insert_eq.
  unfold call. cbn [self world _signer set_access_key].
  by destruct (sign_and_serialize_transaction _ _ _ _ _ _) as [r w2].
Qed.

Lemma view_function_run contract_id method_name (args : PyVal) s :
  view_function contract_id method_name args s =
  match json_dumps args with
  | Raise e => mkOut (Action := Action) (Raise e) s [CallJsonDumps args]
  | Ok text =>
      match utf8_encode text with
      | Raise e => mkOut (Raise e) s [CallJsonDumps args]
      | Ok encoded =>
          let request := CallViewCall contract_id method_name encoded in
          match view_call (_provider (self s)) contract_id method_name
                  encoded (world s) with
          | (Raise e, w) =>
              mkOut (Raise e) (mkState w (self s))
                [CallJsonDumps args; request]
          | (Ok result, w) =>
              let s' := mkState w (self s) in
              match py_contains (py "error") result with
              | Raise e => mkOut (Raise e) s' [CallJsonDumps args; request]
              | Ok true =>
                  mkOut match py_getitem result (py "error") with
                        | Raise e => Raise e
                        | Ok message =>
                            Raise (ViewFunctionError (Payload message))
                        end
                        s' [CallJsonDumps args; request]
              | Ok false =>
                  match view_text result with
                  | Raise e =>
                      mkOut (Raise e) s' [CallJsonDumps args; request]
                  | Ok text =>
                      mkOut match json_loads text with
                            | Raise e => Raise e
                            | Ok value =>
                                py_setitem result (py "result") value
                            end
                            s'
                            [CallJsonDumps args; request; CallJsonLoads text]
                  end
              end
          end
      end
  end.
Proof.
  unfold view_function.
  unfold bind at 1, get_self at 1. unfold bind at 1, call_pure at 1.
  destruct (json_dumps args) as [text|e]; [|reflexivity].
  unfold bind at 1, lift at 1.
  destruct (utf8_encode text) as [encoded|e]; [|reflexivity].
  unfold bind at 1, call at 1.
  destruct (view_call _ _ _ _ _) as [[result|e] w]; [|reflexivity].
  unfold bind at 1, lift at 1.
  destruct (py_contains (py "error") result) as [[]|e]; [| |reflexivity].
  - unfold bind at 1, lift at 1.
    by destruct (py_getitem result (py "error")).
  - unfold view_text. unfold bind at 1, lift at 1.
    destruct (py_getitem result (py "result")) as [data|e]; [|reflexivity].
    unfold bind at 1, lift at 1.
    destruct (py_iter data) as [items|e]; [|reflexivity].
    unfold bind at 1, lift at 1.
    destruct (chr_all items) as [chars|e]; [|reflexivity].
    unfold bind at 1, call_pure at 1.
    destruct (json_loads (py_join chars)) as [value|e]; [|reflexivity].
    unfold bind at 1, lift at 1.
    by destruct (py_setitem result (py "result") value).
Qed.

Lemma fetch_state_run s :
  fetch_state s =
  match get_account (_provider (self s)) (_account_id (self s)) (world s) with
  | (Raise e, w) =>
      mkOut (Action := Action) (Raise e) (mkState w (self s))
        [CallGetAccount (_account_id (self s))]
  | (Ok snapshot, w) =>
      mkOut (Ok tt) (mkState w (set_account snapshot (self s)))
        [CallGetAccount (_account_id (self s))]
  end.
Proof.
  unfold fetch_state. unfold bind at 1, get_self at 1.
  unfold bind at 1, call at 1.
  by destruct (get_account _ _ _) as [[snapshot|e] w].
Qed.

(** ** Traces *)

Lemma bind_run {A B} (m : Comp A) (k : A -> Comp B) s :
  bind m k s =
  match res (m s) with
  | Raise e => mkOut (Raise e) (final (m s)) (trace (m s))
  | Ok a =>
      let o := k a (final (m s)) in
      mkOut (res o) (final o) (trace (m s) ++ trace o)
  end.
Proof.
  unfold bind. destruct (m s) as [[a|e] s1 t1]; [|reflexivity].
  cbn. by destruct (k a s1).
Qed.

Lemma nonce_of_Some (a : Account World Signer) n :
  nonce_of a = Some n <->
  exists d, _access_key a = PDict d /\ d !! py "nonce" = Some (PInt n).
Proof.
  unfold nonce_of. split.
  - destruct (_access_key a); try discriminate.
    destruct (d !! py "nonce") as [[]|] eqn:E; try discriminate.
    intros [= ->]. eauto.
  - intros (d & -> & ->). reflexivity.
Qed.

Lemma nonce_of_incremented (a : Account World Signer) d n :
  nonce_of (set_access_key (PDict (<[py "nonce" := PInt n]> d)) a) = Some n.
Proof. unfold nonce_of. cbn [set_access_key _access_key]. by rewrite lookup_insert_eq. Qed.

Lemma printed_Print (logs : list PyVal) :
  printed (Signer := Signer) (Action := Action) (Print <$> logs) = logs.
Proof. induction logs as [|l logs IH]; [reflexivity|]. cbn. f_equal. exact IH. Qed.

Lemma signed_nonces_Print (logs : list PyVal) :
  signed_nonces (Signer := Signer) (Action := Action) (Print <$> logs) = [].
Proof. by induction logs. Qed.

Lemma nonce_stores_Print (logs : list PyVal) :
  nonce_stores (Signer := Signer) (Action := Action) (Print <$> logs) = [].
Proof. by induction logs. Qed.

Lemma submitted_Print (logs : list PyVal) :
  submitted (Signer := Signer) (Action := Action) (Print <$> logs) = [].
Proof. by induction logs. Qed.

Lemma assembly_free_Print (logs : list PyVal) :
  Forall (fun ev : Event Signer Action => is_assembly_event ev = false)
    (Print <$> logs).
Proof. induction logs; constructor; done. Qed.

Lemma nonce_stores_store (v : PyVal) (t : list (Event Signer Action)) :
  nonce_stores (StoreAccessKey (py "nonce") v :: t) = v :: nonce_stores t.
Proof. unfold nonce_stores. cbn [omap list_omap]. by rewrite bool_decide_eq_true_2. Qed.

(** ** The two submission methods *)

Lemma submit_split sub s :
  submit sub s =
  bind (assemble (receiver_of sub) (actions_of sub)) (send_step sub) s.
Proof. destruct sub; [apply sync_split | apply async_split]. Qed.

Lemma omap_Print_None {B} (f : Event Signer Action -> option B)
    (logs : list PyVal) :
  (forall log, f (Print log) = None) -> omap f (Print <$> logs) = [].
Proof.
  intros Hf. induction logs as [|l logs IH]; [reflexivity|].
  cbn [fmap list_fmap omap list_omap]. by rewrite Hf.
Qed.

Lemma send_step_effects sub tx s :
  let o := send_step sub tx s in
  self (final o) = self s /\
  nonce_stores (trace o) = [] /\
  signed_nonces (trace o) = [] /\
  submitted (trace o) = [tx] /\
  Forall (fun ev => is_assembly_event ev = false) (trace o).
Proof.
  unfold nonce_stores, signed_nonces, submitted.
  destruct sub; cbn [send_step].
  - rewrite wait_and_classify_run.
    destruct (send_tx_and_wait _ _ _ _) as [[result|e] w];
      cbn [res final trace self omap list_omap];
      rewrite ?omap_Print_None by done;
      repeat split; try done;
      (apply Forall_cons; split; [done|]);
      [apply assembly_free_Print | apply Forall_nil_2].
  - rewrite fire_run.
    destruct (send_tx _ _ _) as [[result|e] w];
      cbn [res final trace self omap list_omap];
      repeat split; try done;
      (apply Forall_cons; split; [done|]); apply Forall_nil_2.
Qed.

Lemma assemble_effects sub s n :
  nonce_of (self s) = Some n ->
  let o := assemble (receiver_of sub) (actions_of sub) s in
  nonce_of (self (final o)) = Some (n + 1) /\
  _provider (self (final o)) = _provider (self s) /\
  _signer (self (final o)) = _signer (self s) /\
  _account_id (self (final o)) = _account_id (self s) /\
  _account (self (final o)) = _account (self s) /\
  nonce_stores (trace o) = [PInt (n + 1)] /\
  submitted (trace o) = [] /\
  match res o with
  | Ok _ => signed_nonces (trace o) = [PInt (n + 1)]
  | Raise _ => signed_nonces (trace o) = [] \/
               signed_nonces (trace o) = [PInt (n + 1)]
  end.
Proof.
  intros (d & Hk & Hn)%nonce_of_Some.
  rewrite (assemble_run _ _ _ _ _ Hk Hn). cbv zeta.
  destruct (get_status _ _) as [[status|e] w1];
    [destruct (block_hash_text status) as [encoded|e];
     [destruct (b58decode encoded) as [h|e];
      [destruct (sign_and_serialize_transaction _ _ _ _ _ _) as [[tx|e] w2]|]|]|];
    cbn [res final trace self]; rewrite nonce_of_incremented, nonce_stores_store;
    repeat split; auto.
Qed.

Lemma submit_effects sub s n :
  nonce_of (self s) = Some n ->
  let o := submit sub s in
  nonce_of (self (final o)) = Some (n + 1) /\
  nonce_stores (trace o) = [PInt (n + 1)] /\
  (signed_nonces (trace o) = [] \/ signed_nonces (trace o) = [PInt (n + 1)]).
Proof.
  intros Hn. cbv zeta. rewrite submit_split, bind_run.
  destruct (assemble_effects sub s n Hn) as (Hn' & _ & _ & _ & _ & Hst & _ & Hsg).
  destruct (res (assemble _ _ s)) as [tx|e]; cbn [res final trace].
  - destruct (send_step_effects sub tx (final (assemble (receiver_of sub) (actions_of sub) s)))
      as (Hself & Hst' & Hsg' & _).
    rewrite Hself. unfold nonce_stores, signed_nonces in *.
    rewrite !omap_app, Hst, Hst', Hsg, Hsg'. auto.
  - auto.
Qed.

Lemma run_all_effects subs :
  forall s n (i : nat) o,
    nonce_of (self s) = Some n ->
    run_all subs s !! i = Some o ->
    nonce_stores (trace o) = [PInt (n + Z.of_nat i + 1)] /\
    (signed_nonces (trace o) = [] \/
     signed_nonces (trace o) = [PInt (n + Z.of_nat i + 1)]).
Proof.
  induction subs as [|sub rest IH]; intros s n i o Hn Hi; [done|].
  destruct (submit_effects sub s n Hn) as (Hn' & Hst & Hsg).
  destruct i as [|i]; cbn in Hi.
  - injection Hi as <-. rewrite Z.add_0_r. auto.
  - destruct (IH _ _ _ _ Hn' Hi) as [H1 H2].
    replace (n + Z.of_nat (S i) + 1) with (n + 1 + Z.of_nat i + 1) by lia.
    auto.
Qed.

(** C1. Submissions issued one at a time against an account whose nonce is
    [n]: the submission at position [i] stores exactly one new nonce,
    [n + i + 1], and hands no other nonce to
    [sign_and_serialize_transaction]; so the nonce signed by an earlier
    submission is strictly less than the nonce signed by a later one, in
    particular by the next one. *)
Theorem nonces_strictly_increase subs s n :
  nonce_of (self s) = Some n ->
  (forall (i : nat) o,
      run_all subs s !! i = Some o ->
      nonce_stores (trace o) = [PInt (n + Z.of_nat i + 1)] /\
      (forall v, v ∈ signed_nonces (trace o) ->
                 v = PInt (n + Z.of_nat i + 1)) /\
      (length (signed_nonces (trace o)) <= 1)%nat) /\
  (forall (i j : nat) oi oj x y,
      (i < j)%nat ->
      run_all subs s !! i = Some oi ->
      run_all subs s !! j = Some oj ->
      PInt x ∈ signed_nonces (trace oi) ->
      PInt y ∈ signed_nonces (trace oj) ->
      x < y).
Proof.
  intros Hn.
  assert (Hone : forall (i : nat) o,
      run_all subs s !! i = Some o ->
      nonce_stores (trace o) = [PInt (n + Z.of_nat i + 1)] /\
      (forall v, v ∈ signed_nonces (trace o) ->
                 v = PInt (n + Z.of_nat i + 1)) /\
      (length (signed_nonces (trace o)) <= 1)%nat).
  { intros i o Hi.
    destruct (run_all_effects subs s n i o Hn Hi) as [Hst [Hsg|Hsg]];
      rewrite Hsg; repeat split; auto; cbn; try lia.
    - intros v Hv. by apply elem_of_nil in Hv.
    - intros v Hv. by apply list_elem_of_singleton in Hv. }
  split; [exact Hone|].
  intros i j oi oj x y Hij Hi Hj Hx Hy.
  destruct (Hone i oi Hi) as (_ & Hxi & _).
  destruct (Hone j oj Hj) as (_ & Hyj & _).
  apply Hxi in Hx. apply Hyj in Hy.
  injection Hx as ->. injection Hy as ->. lia.
Qed.

(** C4. A submission from an account whose nonce is [n], when the status
    request answers with a block hash text that base58-decodes to
    [block_hash]: the trace starts with the store of [n + 1], the status
    request, the decoding of the encoded text and the call of
    [sign_and_serialize_transaction] with the receiver, [n + 1], the actions,
    [block_hash] and the signer, in this order; none of these steps happens
    again, and the account's nonce is [n + 1] afterwards. *)
Theorem assembly_steps_in_order sub s n status w1 sync_info text encoded
    block_hash :
  nonce_of (self s) = Some n ->
  get_status (_provider (self s)) (world s) = (Ok status, w1) ->
  py_getitem status (py "sync_info") = Ok sync_info ->
  py_getitem sync_info (py "latest_block_hash") = Ok (PStr text) ->
  utf8_encode text = Ok encoded ->
  b58decode encoded = Ok block_hash ->
  exists rest,
    trace (submit sub s) =
      [StoreAccessKey (py "nonce") (PInt (n + 1));
       CallGetStatus;
       CallB58Decode encoded;
       CallSign (receiver_of sub) (PInt (n + 1)) (actions_of sub) block_hash
         (_signer (self s))] ++ rest /\
    Forall (fun ev => is_assembly_event ev = false) rest /\
    nonce_of (self (final (submit sub s))) = Some (n + 1).
Proof.
  intros Hnonce Hstatus Hinfo Hhash Henc Hdec.
  assert (Htext : block_hash_text status = Ok encoded).
  { unfold block_hash_text. by rewrite Hinfo, Hhash. }
  destruct (proj1 (nonce_of_Some _ _) Hnonce) as (d & Hk & Hn).
  rewrite submit_split, bind_run, (assemble_run _ _ _ _ _ Hk Hn). cbv zeta.
  rewrite Hstatus, Htext, Hdec.
  destruct (sign_and_serialize_transaction _ _ _ _ _ _) as [[tx|e] w2];
    cbn [res final trace self].
  - match goal with |- context [send_step sub tx ?st] =>
      destruct (send_step_effects sub tx st) as (Hself & _ & _ & _ & Hfree)
    end.
    eexists. split; [reflexivity|]. split; [exact Hfree|].
    rewrite Hself. apply nonce_of_incremented.
  - exists []. split; [reflexivity|]. split; [constructor|].
    apply nonce_of_incremented.
Qed.

(** C8. When the assembly fails after the increment, in either submission
    method: the call raises the error of the failing step, the account's
    nonce stays at [n + 1] (the one store of the call is not undone) and
    nothing has been handed to the provider for submission. *)
Theorem failed_assembly_keeps_increment sub s n e :
  nonce_of (self s) = Some n ->
  assembly_fails sub s n e ->
  let o := submit sub s in
  res o = Raise e /\
  nonce_of (self (final o)) = Some (n + 1) /\
  nonce_stores (trace o) = [PInt (n + 1)] /\
  submitted (trace o) = [].
Proof.
  intros Hnonce Hfail. cbv zeta.
  destruct (proj1 (nonce_of_Some _ _) Hnonce) as (d & Hk & Hn).
  rewrite submit_split, bind_run, (assemble_run _ _ _ _ _ Hk Hn). cbv zeta.
  destruct Hfail as [w1 H1 | status w1 H1 H2 | status w1 encoded H1 H2 H3
                    | status w1 encoded h w2 H1 H2 H3 H4];
    rewrite H1, ?H2, ?H3, ?H4; cbn [res final trace self];
    rewrite nonce_of_incremented, nonce_stores_store; done.
Qed.

(** ** The public operations

    Every public operation is one of the two submission methods applied to
    the actions it builds, after the serialization of its arguments where it
    has some. *)

Lemma bind_get_self {B} (k : Account World Signer -> Comp B) s :
  bind get_self k s = k (self s) s.
Proof. unfold bind, get_self. by destruct (k (self s) s). Qed.

Lemma operations_with_receiver (account_id : pystr)
    (amount public_key contract_code : PyVal) s :
  send_money account_id amount s =
    submit (Sync account_id [create_transfer_action amount]) s /\
  send_money_async account_id amount s =
    submit (Async account_id [create_transfer_action amount]) s /\
  create_account account_id public_key amount s =
    submit (Sync account_id
              [create_create_account_action;
               create_full_access_key_action public_key;
               create_transfer_action amount]) s /\
  create_account_async account_id public_key amount s =
    submit (Async account_id
              [create_create_account_action;
               create_full_access_key_action public_key;
               create_transfer_action amount]) s /\
  create_and_deploy_contract account_id public_key contract_code amount s =
    submit (Sync account_id
              ([create_create_account_action;
                create_transfer_action amount;
                create_deploy_contract_action contract_code]
               ++ full_access_key_if_given public_key)) s /\
  create_and_deploy_contract_async account_id public_key contract_code
      amount s =
    submit (Async account_id
              ([create_create_account_action;
                create_transfer_action amount;
                create_deploy_contract_action contract_code]
               ++ full_access_key_if_given public_key)) s.
Proof. repeat split. Qed.

Lemma operations_on_self (beneficiary_id : pystr)
    (public_key contract_code amount : PyVal) s :
  let me := _account_id (self s) in
  delete_account beneficiary_id s =
    submit (Sync me [create_delete_account_action beneficiary_id]) s /\
  delete_account_async beneficiary_id s =
    submit (Async me [create_delete_account_action beneficiary_id]) s /\
  create_full_access_key public_key s =
    submit (Sync me [create_full_access_key_action public_key]) s /\
  create_full_access_key_async public_key s =
    submit (Async me [create_full_access_key_action public_key]) s /\
  delete_access_key public_key s =
    submit (Sync me [create_delete_access_key_action public_key]) s /\
  delete_access_key_async public_key s =
    submit (Async me [create_delete_access_key_action public_key]) s /\
  deploy_contract contract_code s =
    submit (Sync me [create_deploy_contract_action contract_code]) s /\
  deploy_contract_async contract_code s =
    submit (Async me [create_deploy_contract_action contract_code]) s /\
  stake public_key amount s =
    submit (Sync me [create_staking_action public_key amount]) s /\
  stake_async public_key amount s =
    submit (Async me [create_staking_action public_key amount]) s.
Proof. cbv zeta. repeat split; apply bind_get_self. Qed.

Lemma operations_with_arguments (contract_id method_name : pystr)
    (args gas amount : PyVal) s :
  function_call contract_id method_name args gas amount s =
    bind (dump_args args)
      (fun encoded =>
         submit (Sync contract_id
                   [create_function_call_action method_name encoded gas
                      amount])) s /\
  function_call_async contract_id method_name args gas amount s =
    bind (dump_args args)
      (fun encoded =>
         submit (Async contract_id
                   [create_function_call_action method_name encoded gas
                      amount])) s.
Proof. split; reflexivity. Qed.

(** ** The synchronous path: logs and classification *)

Lemma has_logs_outcome_logs (outcome : PyVal) (logs : list PyVal) :
  has_logs outcome logs -> outcome_logs outcome = Ok logs.
Proof. intros (inner & H1 & H2). unfold outcome_logs. by rewrite H1, H2. Qed.

Lemma receipts_logs_all (receipts : list PyVal)
    (receipt_logs : list (list PyVal)) :
  Forall2 has_logs receipts receipt_logs ->
  receipts_logs receipts = (concat receipt_logs, Ok tt).
Proof.
  induction 1 as [|o logs rest more Ho _ IH]; [reflexivity|].
  cbn [receipts_logs concat].
  by rewrite (has_logs_outcome_logs _ _ Ho), IH.
Qed.

Lemma tree_logs_all (result : PyVal) (tx_logs : list PyVal)
    (receipt_logs : list (list PyVal)) :
  is_outcome_tree result tx_logs receipt_logs ->
  tree_logs result = (tx_logs ++ concat receipt_logs, Ok tt).
Proof.
  intros (t & rs & H1 & H2 & H3 & H4). unfold tree_logs.
  rewrite H1, H2, (has_logs_outcome_logs _ _ H3). cbn [py_iter].
  by rewrite (receipts_logs_all _ _ H4).
Qed.

Lemma sync_after_assembly receiver_id actions s tx result w :
  let s1 := final (assemble receiver_id actions s) in
  res (assemble receiver_id actions s) = Ok tx ->
  send_tx_and_wait (_provider (self s1)) tx 10 (world s1) = (Ok result, w) ->
  _sign_and_submit_tx receiver_id actions s =
  mkOut (match (tree_logs result).2 with
         | Raise e => Raise e
         | Ok _ => classify result
         end)
        (mkState w (self s1))
        (trace (assemble receiver_id actions s) ++
         CallSendTxAndWait tx 10 :: (Print <$> (tree_logs result).1)).
Proof.
  cbv zeta. intros Htx Hsend.
  by rewrite sync_split, bind_run, Htx, wait_and_classify_run, Hsend.
Qed.

Lemma trace_bind_Forall {A B} (P : Event Signer Action -> Prop)
    (m : Comp A) (k : A -> Comp B) s :
  Forall P (trace (m s)) ->
  (forall a s', Forall P (trace (k a s'))) ->
  Forall P (trace (bind m k s)).
Proof.
  intros Hm Hk. rewrite bind_run.
  destruct (res (m s)); cbn [trace]; [|done].
  apply Forall_app; auto.
Qed.

Lemma trace_call {A} ev (f : World -> Result A * World) s :
  trace (call (Signer := Signer) (Action := Action) ev f s) = [ev].
Proof. unfold call. by destruct (f (world s)). Qed.

Lemma assemble_prints_nothing receiver_id actions s :
  printed (trace (assemble receiver_id actions s)) = [].
Proof.
  assert (H : Forall (fun ev => printed [ev] = [])
                (trace (assemble receiver_id actions s))).
  { unfold assemble, store_access_key.
    repeat (apply trace_bind_Forall; [|intros ? ?]);
      rewrite ?trace_call; repeat constructor. }
  induction H as [|ev t Hev _ IH]; [reflexivity|].
  change (ev :: t) with ([ev] ++ t). unfold printed in *.
  by rewrite omap_app, Hev, IH.
Qed.

(** C7. A synchronous submission that got an outcome tree back prints the
    logs of the transaction outcome and then the logs of each receipt
    outcome, in the order of the response, and prints nothing else; this
    holds whatever the status of the response is. *)
Theorem logs_surface_in_remote_order receiver_id actions s tx result w
    (tx_logs : list PyVal) (receipt_logs : list (list PyVal)) :
  let s1 := final (assemble receiver_id actions s) in
  res (assemble receiver_id actions s) = Ok tx ->
  send_tx_and_wait (_provider (self s1)) tx 10 (world s1) = (Ok result, w) ->
  is_outcome_tree result tx_logs receipt_logs ->
  printed (trace (_sign_and_submit_tx receiver_id actions s)) =
    tx_logs ++ concat receipt_logs.
Proof.
  cbv zeta. intros Htx Hsend Htree.
  rewrite (sync_after_assembly _ _ _ _ _ _ Htx Hsend).
  rewrite (tree_logs_all _ _ _ Htree). cbn [trace fst].
  unfold printed at 1. rewrite omap_app. fold (printed (trace (assemble receiver_id actions s))).
  rewrite assemble_prints_nothing. cbn [omap list_omap app].
  apply printed_Print.
Qed.

Lemma is_prefix_spec (p s : pystr) :
  is_prefix p s = true <-> exists after, s = p ++ after.
Proof.
  revert s. induction p as [|a p IH]; intros s; cbn [is_prefix].
  - split; [intros _; by exists s | done].
  - destruct s as [|b s].
    + split; [discriminate | by intros [after H]].
    + rewrite andb_true_iff, Z.eqb_eq, IH. split.
      * intros [-> [after ->]]. by exists after.
      * intros [after [= -> ->]]. split; [done | by exists after].
Qed.

Lemma is_substring_spec (p s : pystr) :
  is_substring p s = true <-> exists before after, s = before ++ p ++ after.
Proof.
  split.
  - induction s as [|c s IH].
    + cbn [is_substring]. rewrite orb_false_r.
      intros [after H]%is_prefix_spec. by exists [], after.
    + cbn [is_substring]. intros [Hp|Hs]%orb_true_iff.
      * apply is_prefix_spec in Hp as [after H]. by exists [], after.
      * destruct (IH Hs) as (before & after & ->).
        by exists (c :: before), after.
  - intros (before & after & ->).
    induction before as [|c before IH].
    + assert (Hp : is_prefix p ([] ++ p ++ after) = true)
        by (apply is_prefix_spec; by exists after).
      destruct ([] ++ p ++ after); cbn [is_substring]; by rewrite Hp.
    + cbn [app is_substring]. rewrite IH. apply orb_true_r.
Qed.

Lemma existsb_is_str (key : pystr) (items : list PyVal) :
  existsb (is_str key) items = true <-> PStr key ∈ items.
Proof.
  rewrite existsb_exists. split.
  - intros (x & Hin & Hx). apply list_elem_of_In in Hin.
    destruct x; try discriminate. cbn [is_str] in Hx.
    by apply bool_decide_eq_true_1 in Hx as ->.
  - intros Hin. exists (PStr key). split; [by apply list_elem_of_In|].
    cbn [is_str]. by apply bool_decide_eq_true_2.
Qed.

(** C2. A synchronous submission that got an outcome tree back raises
    [TransactionError] with a payload exactly when the status of the response
    is a mapping that holds this payload under ["Failure"].  It returns the
    response itself when the status is a mapping without a ["Failure"]
    entry, a string in which [Failure] does not occur, or a list without the
    element ["Failure"]. *)
Theorem sync_result_classification receiver_id actions s tx result w
    (tx_logs : list PyVal) (receipt_logs : list (list PyVal))
    (status : PyVal) :
  let s1 := final (assemble receiver_id actions s) in
  res (assemble receiver_id actions s) = Ok tx ->
  send_tx_and_wait (_provider (self s1)) tx 10 (world s1) = (Ok result, w) ->
  is_outcome_tree result tx_logs receipt_logs ->
  py_getitem result (py "status") = Ok status ->
  let o := _sign_and_submit_tx receiver_id actions s in
  (forall payload,
      res o = Raise (TransactionError (Payload payload)) <->
      exists d, status = PDict d /\ d !! py "Failure" = Some payload) /\
  (forall d,
      status = PDict d -> d !! py "Failure" = None -> res o = Ok result) /\
  (forall text,
      status = PStr text ->
      (forall before after, text <> before ++ py "Failure" ++ after) ->
      res o = Ok result) /\
  (forall items,
      status = PList items -> PStr (py "Failure") ∉ items ->
      res o = Ok result).
Proof.
  cbv zeta. intros Htx Hsend Htree Hstatus.
  rewrite (sync_after_assembly _ _ _ _ _ _ Htx Hsend).
  rewrite (tree_logs_all _ _ _ Htree). cbn [res snd].
  unfold classify. rewrite Hstatus. split; [|split; [|split]].
  - intros payload. split.
    + destruct status; cbn [py_contains py_getitem]; try discriminate.
      * by destruct (is_substring _ _).
      * by destruct (existsb _ _).
      * destruct (d !! py "Failure") as [p|] eqn:Hd.
        -- rewrite bool_decide_eq_true_2 by eauto.
           intros [= ->]. eauto.
        -- rewrite bool_decide_eq_false_2 by (intros [? ?]; done).
           discriminate.
    + intros (d & -> & Hd). cbn [py_contains py_getitem]. rewrite Hd.
      by rewrite bool_decide_eq_true_2 by eauto.
  - intros d -> Hd. cbn [py_contains]. rewrite Hd.
    by rewrite bool_decide_eq_false_2 by (intros [? ?]; done).
  - intros text -> Hnot. cbn [py_contains].
    destruct (is_substring (py "Failure") text) eqn:Hsub; [|reflexivity].
    apply is_substring_spec in Hsub as (before & after & ->).
    by destruct (Hnot before after).
  - intros items -> Hnot. cbn [py_contains].
    destruct (existsb (is_str (py "Failure")) items) eqn:Hex; [|reflexivity].
    by apply existsb_is_str in Hex.
Qed.

(** ** The asynchronous path *)

Lemma async_after_assembly receiver_id actions s tx result w :
  let s1 := final (assemble receiver_id actions s) in
  res (assemble receiver_id actions s) = Ok tx ->
  send_tx (_provider (self s1)) tx (world s1) = (Ok result, w) ->
  _sign_and_submit_tx_async receiver_id actions s =
  mkOut (check_handle result) (mkState w (self s1))
        (trace (assemble receiver_id actions s) ++ [CallSendTx tx]).
Proof.
  cbv zeta. intros Htx Hsend.
  by rewrite async_split, bind_run, Htx, fire_run, Hsend.
Qed.

(** A reply of 44 characters is answered with [TransactionError]; a reply of
    any other length is returned. *)
Lemma async_reply_by_length receiver_id actions s tx (handle : pystr) w :
  let s1 := final (assemble receiver_id actions s) in
  res (assemble receiver_id actions s) = Ok tx ->
  send_tx (_provider (self s1)) tx (world s1) = (Ok (PStr handle), w) ->
  res (_sign_and_submit_tx_async receiver_id actions s) =
    if Z.of_nat (length handle) =? 44
    then Raise (TransactionError (Formatted (PStr handle)))
    else Ok (PStr handle).
Proof.
  cbv zeta. intros Htx Hsend.
  by rewrite (async_after_assembly _ _ _ _ _ _ Htx Hsend).
Qed.

(** ** The view path *)

Lemma py_chr_code (c : Z) :
  0 <= c < 0x110000 -> py_chr (PInt c) = Ok [c].
Proof.
  intros Hc. cbn [py_chr].
  destruct (Z.ltb_spec c (-2147483648)); [lia|].
  destruct (Z.ltb_spec 2147483647 c); [lia|].
  destruct (Z.leb_spec 0 c); [|lia].
  destruct (Z.ltb_spec c 1114112); [reflexivity|lia].
Qed.

Lemma chr_all_ints (codes : list Z) :
  Forall (fun c => 0 <= c < 0x110000) codes ->
  chr_all (PInt <$> codes) = Ok ((fun c => [c]) <$> codes).
Proof.
  induction 1 as [|c codes Hc _ IH]; [reflexivity|].
  cbn [fmap list_fmap chr_all]. fold (fmap (M := list) PInt codes).
  by rewrite IH, (py_chr_code c Hc).
Qed.

Lemma join_singletons (codes : list Z) :
  py_join ((fun c => [c]) <$> codes) = codes.
Proof.
  unfold py_join. induction codes as [|c codes IH]; [reflexivity|].
  cbn. f_equal. exact IH.
Qed.

(** C5. A view call whose response has an ["error"] entry raises
    [ViewFunctionError] with the entry's value; the call has then asked for
    the arguments to be serialized and for the view call, and [json.loads]
    was never called. *)
Theorem view_error_raises_before_decoding contract_id method_name
    (args : PyVal) s text encoded d (message : PyVal) w :
  json_dumps args = Ok text ->
  utf8_encode text = Ok encoded ->
  view_call (_provider (self s)) contract_id method_name encoded (world s) =
    (Ok (PDict d), w) ->
  d !! py "error" = Some message ->
  let o := view_function contract_id method_name args s in
  res o = Raise (ViewFunctionError (Payload message)) /\
  trace o = [CallJsonDumps args;
             CallViewCall contract_id method_name encoded] /\
  Forall (fun ev => is_json_loads ev = false) (trace o).
Proof.
  intros Hdumps Henc Hcall Herr. cbv zeta.
  rewrite view_function_run, Hdumps, Henc. cbv zeta. rewrite Hcall.
  cbn [py_contains py_getitem]. rewrite Herr.
  rewrite bool_decide_eq_true_2 by eauto. cbn [res trace].
  repeat split. repeat constructor.
Qed.

(** C6. A view call whose response has no ["error"] entry and a list of
    bytes under ["result"]: the text made of the characters with these codes
    is handed to [json.loads]; when it parses, the call returns the response
    with the parsed value under ["result"], and when it does not, the call
    raises the parser's error. *)
Theorem view_result_is_decoded_and_parsed contract_id method_name
    (args : PyVal) s text encoded d (bytes : list Z) w :
  json_dumps args = Ok text ->
  utf8_encode text = Ok encoded ->
  view_call (_provider (self s)) contract_id method_name encoded (world s) =
    (Ok (PDict d), w) ->
  d !! py "error" = None ->
  d !! py "result" = Some (PList (PInt <$> bytes)) ->
  Forall (fun b => 0 <= b < 256) bytes ->
  let o := view_function contract_id method_name args s in
  trace o = [CallJsonDumps args;
             CallViewCall contract_id method_name encoded;
             CallJsonLoads bytes] /\
  res o = match json_loads bytes with
          | Ok value => Ok (PDict (<[py "result" := value]> d))
          | Raise e => Raise e
          end.
Proof.
  intros Hdumps Henc Hcall Herr Hres Hbytes. cbv zeta.
  rewrite view_function_run, Hdumps, Henc. cbv zeta. rewrite Hcall.
  cbn [py_contains]. rewrite Herr.
  rewrite bool_decide_eq_false_2 by (intros [? ?]; done).
  unfold view_text. cbn [py_getitem]. rewrite Hres. cbn [py_iter].
  rewrite chr_all_ints, join_singletons.
  - cbn [res trace]. split; [reflexivity|].
    by destruct (json_loads bytes).
  - eapply Forall_impl; [exact Hbytes|]. cbn. intros; lia.
Qed.

(** C9. A call of [view_function], whatever its outcome, leaves the account
    as it was (its access key with the public key and the nonce included)
    and takes no step of the submission path: no store into the access key,
    no block-hash request or decoding, no signature, no submission. *)
Theorem view_function_leaves_access_key contract_id method_name
    (args : PyVal) s :
  let o := view_function contract_id method_name args s in
  self (final o) = self s /\
  Forall (fun ev => is_submission_event ev = false) (trace o).
Proof.
  cbv zeta. rewrite view_function_run.
  destruct (json_dumps args) as [text|e];
    [destruct (utf8_encode text) as [encoded|e];
     [cbv zeta;
      destruct (view_call _ _ _ _ _) as [[result|e] w];
      [destruct (py_contains (py "error") result) as [[]|e];
       [| destruct (view_text result) as [t|e] |] |] |] |];
    cbn [final trace self]; (split; [reflexivity|]); repeat constructor.
Qed.

(** C10. A call of [fetch_state] asks the provider once for the account of
    this account's identifier; the identifier, the signer, the provider and
    the access key are as before; the snapshot is the provider's answer when
    there is one, and is as before when the lookup raises. *)
Theorem fetch_state_replaces_only_snapshot s :
  let o := fetch_state (Action := Action) s in
  _account_id (self (final o)) = _account_id (self s) /\
  _signer (self (final o)) = _signer (self s) /\
  _provider (self (final o)) = _provider (self s) /\
  _access_key (self (final o)) = _access_key (self s) /\
  trace o = [CallGetAccount (_account_id (self s))] /\
  match get_account (_provider (self s)) (_account_id (self s)) (world s) with
  | (Ok snapshot, w) =>
      res o = Ok tt /\ _account (self (final o)) = snapshot /\
      world (final o) = w
  | (Raise e, w) =>
      res o = Raise e /\ _account (self (final o)) = _account (self s) /\
      world (final o) = w
  end.
Proof.
  cbv zeta. rewrite fetch_state_run.
  by destruct (get_account _ _ _) as [[snapshot|e] w].
Qed.

(** ** The increment of the nonce *)

Lemma assemble_increment_fails receiver_id actions s e :
  incremented (_access_key (self s)) = Raise e ->
  assemble receiver_id actions s = mkOut (Raise e) s [].
Proof.
  unfold incremented, assemble.
  unfold bind at 1, get_self at 1.
  unfold bind at 1, lift at 1.
  destruct (_access_key (self s)) as [|b0|z0|t0|l0|d];
    cbn [py_getitem]; try (by intros [= ->]).
  destruct (d !! py "nonce") as [old|]; [|by intros [= ->]].
  unfold bind at 1, lift at 1.
  destruct (py_add1 old) as [new|e']; [discriminate|by intros [= ->]].
Qed.

Lemma assemble_run_incremented receiver_id actions s new updated :
  incremented (_access_key (self s)) = Ok (new, updated) ->
  assemble receiver_id actions s =
    let acct := set_access_key updated (self s) in
    let store := StoreAccessKey (py "nonce") new in
    match get_status (_provider (self s)) (world s) with
    | (Raise e, w1) => mkOut (Raise e) (mkState w1 acct) [store; CallGetStatus]
    | (Ok status, w1) =>
        match block_hash_text status with
        | Raise e => mkOut (Raise e) (mkState w1 acct) [store; CallGetStatus]
        | Ok encoded =>
            match b58decode encoded with
            | Raise e =>
                mkOut (Raise e) (mkState w1 acct)
                  [store; CallGetStatus; CallB58Decode encoded]
            | Ok block_hash =>
                match sign_and_serialize_transaction receiver_id
                        new actions block_hash (_signer (self s)) w1 with
                | (r, w2) =>
                    mkOut r (mkState w2 acct)
                      [store; CallGetStatus; CallB58Decode encoded;
                       CallSign receiver_id new actions block_hash
                         (_signer (self s))]
                end
            end
        end
    end.
Proof.
  unfold incremented. intros H.
  destruct (_access_key (self s)) as [|b0|z0|t0|l0|d] eqn:Hk; try discriminate.
  cbn [py_getitem] in H.
  destruct (d !! py "nonce") as [old|] eqn:Hn; [|discriminate].
  destruct (py_add1 old) as [new'|] eqn:Hadd; [|discriminate].
  cbn [py_setitem] in H. injection H as -> <-.
  unfold assemble.
  unfold bind at 1, get_self at 1. rewrite Hk.
  unfold bind at 1, lift at 1. unfold py_getitem at 1. rewrite Hn.
  unfold bind at 1, lift at 1. rewrite Hadd.
  unfold bind at 1. rewrite (store_access_key_run _ _ _ d Hk).
  unfold bind at 1, get_self at 1. cbn [self world].
  unfold bind at 1, call at 1. cbn [self world set_access_key _provider].
  destruct (get_status _ _) as [[status|e] w1]; [|reflexivity].
  unfold block_hash_text.
  unfold bind at 1, lift at 1.
  destruct (py_getitem status (py "sync_info")) as [sync_info|e]; [|reflexivity].
  unfold bind at 1, lift at 1.
  destruct (py_getitem sync_info (py "latest_block_hash")) as [bh|e];
    [|reflexivity].
  unfold bind at 1, lift at 1.
  destruct (py_encode_utf8 bh) as [encoded|e]; [|reflexivity].
  unfold bind at 1, call_pure at 1.
  destruct (b58decode encoded) as [h|e]; [|reflexivity].
  unfold bind at 1, get_self at 1. cbn [self _access_key set_access_key].
  unfold bind at 1, lift at 1. unfold py_getitem at 1.
  rewrite lookup_insert_eq.
  unfold call. cbn [self world _signer set_access_key].
  by destruct (sign_and_serialize_transaction _ _ _ _ _ _) as [r w2].
Qed.

Lemma submit_increment_fails sub s e :
  incremented (_access_key (self s)) = Raise e ->
  submit sub s = mkOut (Raise e) s [].
Proof.
  intros H. rewrite submit_split, bind_run.
  by rewrite (assemble_increment_fails _ _ _ _ H).
Qed.

(** X1. A submission from an account whose access key has no ["nonce"]
    entry raises [KeyError] for that key at its first line: no collaborator
    is called, nothing is stored, printed or sent, and the account and the
    world are as before. *)
Theorem submission_without_nonce_entry sub s d :
  _access_key (self s) = PDict d ->
  d !! py "nonce" = None ->
  submit sub s = mkOut (Raise (KeyError (py "nonce"))) s [].
Proof.
  intros Hk Hn. apply submit_increment_fails.
  unfold incremented. rewrite Hk. cbn [py_getitem]. by rewrite Hn.
Qed.

(** X2. A submission from an account whose nonce is not a number (a string,
    a list, a mapping or [None]) raises [TypeError] at its first line: no
    collaborator is called and the account and the world are as before. *)
Theorem submission_with_non_numeric_nonce sub s d (v : PyVal) :
  _access_key (self s) = PDict d ->
  d !! py "nonce" = Some v ->
  is_number v = false ->
  submit sub s = mkOut (Raise TypeError) s [].
Proof.
  intros Hk Hn Hv. apply submit_increment_fails.
  unfold incremented. rewrite Hk. cbn [py_getitem]. rewrite Hn.
  by destruct v.
Qed.

Lemma submit_by_increment sub s :
  match incremented (_access_key (self s)) with
  | Raise e => submit sub s = mkOut (Raise e) s []
  | Ok (new, updated) =>
      self (final (submit sub s)) = set_access_key updated (self s) /\
      nonce_stores (trace (submit sub s)) = [new] /\
      py_getitem updated (py "nonce") = Ok new /\
      Forall (signs_only (receiver_of sub) new (actions_of sub)
                (_signer (self s))) (trace (submit sub s)) /\
      (length (signed_nonces (trace (submit sub s))) <= 1)%nat
  end.
Proof.
  destruct (incremented (_access_key (self s))) as [[new updated]|e] eqn:Hinc.
  - assert (Hget : py_getitem updated (py "nonce") = Ok new).
    { unfold incremented in Hinc.
      destruct (_access_key (self s)) as [|b0|z0|t0|l0|d];
        cbn [py_getitem] in Hinc; try discriminate.
      destruct (d !! py "nonce") as [old|]; [|discriminate].
      destruct (py_add1 old) as [new'|]; [|discriminate].
      cbn [py_setitem] in Hinc. injection Hinc as <- <-.
      cbn [py_getitem]. by rewrite lookup_insert_eq. }
    rewrite submit_split, bind_run,
      (assemble_run_incremented _ _ _ _ _ Hinc). cbv zeta.
    destruct (get_status _ _) as [[status|e] w1];
      [destruct (block_hash_text status) as [encoded|e];
       [destruct (b58decode encoded) as [h|e];
        [destruct (sign_and_serialize_transaction _ _ _ _ _ _)
           as [[tx|e] w2]|]|]|];
      cbn [res final trace self]; rewrite ?nonce_stores_store;
      try (repeat split; try done; try (repeat constructor; done);
           cbn; lia).
    match goal with |- context [send_step sub tx ?st] =>
      destruct (send_step_effects sub tx st)
        as (Hself & Hst & Hsg & _ & Hfree)
    end.
    rewrite Hself. cbn [self].
    unfold nonce_stores, signed_nonces in *.
    rewrite !omap_app, Hst, Hsg.
    cbn [omap list_omap]. rewrite bool_decide_eq_true_2 by done.
    repeat split; try done.
    apply Forall_app. split; [repeat constructor; done|].
    eapply Forall_impl; [exact Hfree|].
    intros [] Hev; try done.
  - by rewrite (submit_increment_fails _ _ _ Hinc).
Qed.

(** X3. No submission, whatever its outcome, changes the provider, the
    signer, the identifier or the cached snapshot of the account: the
    properties [provider], [signer], [account_id] and [state] return after
    it what they returned before it.  In particular the snapshot is not
    refreshed by a transaction. *)
Theorem submission_keeps_identity_and_snapshot sub s :
  let s' := final (submit sub s) in
  res (provider (Action := Action) s') = res (provider (Action := Action) s) /\
  res (signer (Action := Action) s') = res (signer (Action := Action) s) /\
  res (account_id (Action := Action) s') =
    res (account_id (Action := Action) s) /\
  res (state (Action := Action) s') = res (state (Action := Action) s).
Proof.
  cbv zeta. pose proof (submit_by_increment sub s) as H.
  destruct (incremented (_access_key (self s))) as [[new updated]|e].
  - destruct H as (H & _).
    unfold provider, signer, account_id, state.
    by rewrite !bind_get_self, H.
  - by rewrite H.
Qed.

(** X4. A submission from an account whose nonce is [n] leaves an access
    key that differs from the previous one in its ["nonce"] entry only, which
    is [n + 1]; the property [access_key] returns it, and the other entries
    (the permission, for one) read as before. *)
Theorem submission_updates_only_nonce_entry sub s d n :
  _access_key (self s) = PDict d ->
  d !! py "nonce" = Some (PInt n) ->
  let s' := final (submit sub s) in
  res (access_key (Action := Action) s') =
    Ok (PDict (<[py "nonce" := PInt (n + 1)]> d)) /\
  forall key, key <> py "nonce" ->
    py_getitem (_access_key (self s')) key = py_getitem (PDict d) key.
Proof.
  intros Hk Hn. cbv zeta.
  assert (Hinc : incremented (_access_key (self s)) =
                 Ok (PInt (n + 1), PDict (<[py "nonce" := PInt (n + 1)]> d))).
  { unfold incremented. rewrite Hk. cbn [py_getitem]. by rewrite Hn. }
  pose proof (submit_by_increment sub s) as H. rewrite Hinc in H.
  destruct H as (H & _).
  unfold access_key. rewrite bind_get_self, H.
  split; [reflexivity|].
  intros key Hkey. cbn [set_access_key _access_key py_getitem].
  by rewrite lookup_insert_ne.
Qed.

Lemma run_to_end_nonce subs :
  forall s n,
    nonce_of (self s) = Some n ->
    nonce_of (self (run_to_end subs s)) = Some (n + Z.of_nat (length subs)).
Proof.
  induction subs as [|sub rest IH]; intros s n Hn; cbn [run_to_end length].
  - by rewrite Z.add_0_r.
  - destruct (submit_effects sub s n Hn) as (Hn' & _).
    rewrite (IH _ _ Hn'). f_equal. lia.
Qed.

(** X5. After [N] submissions issued one at a time from nonce [n], the nonce
    of the account is [n + N], whether the submissions returned or raised;
    and the states the series goes through are those of [run_all]. *)
Theorem nonce_after_submissions subs s n :
  nonce_of (self s) = Some n ->
  nonce_of (self (run_to_end subs s)) = Some (n + Z.of_nat (length subs)) /\
  run_to_end subs s = default s (final <$> last (run_all subs s)).
Proof.
  intros Hn. split; [by apply run_to_end_nonce|].
  clear Hn. revert s. induction subs as [|sub rest IH]; intros s; [done|].
  cbn [run_to_end run_all]. rewrite IH.
  destruct rest as [|sub' rest']; [done|].
  cbn [run_all last].
  match goal with |- context [last ?l] => destruct (last l) eqn:E end;
    [reflexivity|].
  by apply last_None in E.
Qed.

(** ** What reaches the provider *)

Lemma assemble_submits_nothing receiver_id actions s :
  submitted (trace (assemble receiver_id actions s)) = [].
Proof.
  assert (H : Forall (fun ev => submitted [ev] = [])
                (trace (assemble receiver_id actions s))).
  { unfold assemble, store_access_key.
    repeat (apply trace_bind_Forall; [|intros ? ?]);
      rewrite ?trace_call; repeat constructor. }
  induction H as [|ev t Hev _ IH]; [reflexivity|].
  change (ev :: t) with ([ev] ++ t). unfold submitted in *.
  by rewrite omap_app, Hev, IH.
Qed.

(** X6. A submission hands at most one transaction to the provider, and it
    is the byte string [sign_and_serialize_transaction] returned: when the
    assembly yields [tx], the synchronous method continues with
    [send_tx_and_wait(tx, 10)] followed by prints only, the asynchronous one
    with [send_tx(tx)] and nothing else; when the assembly raises, the call
    ends there with the same error. *)
Theorem one_submission_of_the_signed_bytes sub s :
  let o1 := assemble (receiver_of sub) (actions_of sub) s in
  let o := submit sub s in
  match res o1 with
  | Ok tx =>
      exists logs,
        trace o = trace o1 ++
                  match sub with
                  | Sync _ _ => CallSendTxAndWait tx 10 :: (Print <$> logs)
                  | Async _ _ => [CallSendTx tx]
                  end
  | Raise e =>
      res o = Raise e /\ final o = final o1 /\ trace o = trace o1
  end /\
  submitted (trace o) = match res o1 with Ok tx => [tx] | Raise _ => [] end.
Proof.
  cbv zeta. rewrite submit_split, bind_run.
  destruct (res (assemble _ _ s)) as [tx|e] eqn:Hres; cbn [res final trace].
  - split.
    + destruct sub; cbn [send_step].
      * rewrite wait_and_classify_run.
        destruct (send_tx_and_wait _ _ _ _) as [[result|e] w]; cbn [trace];
          [by eexists | by exists []].
      * rewrite fire_run.
        destruct (send_tx _ _ _) as [[result|e] w]; by exists [].
    + pose proof (assemble_submits_nothing (receiver_of sub)
                    (actions_of sub) s) as Ha.
      destruct (send_step_effects sub tx
                  (final (assemble (receiver_of sub) (actions_of sub) s)))
        as (_ & _ & _ & Hs & _).
      unfold submitted in *. by rewrite omap_app, Ha, Hs.
  - split; [done|]. apply assemble_submits_nothing.
Qed.

(** X7. A submission calls [sign_and_serialize_transaction] at most once,
    and only for the receiver and the actions it was given, with the signer
    of the account and the nonce it has just stored, which is the nonce the
    account holds afterwards. *)
Theorem signs_only_what_was_requested sub s :
  let o := submit sub s in
  (length (signed_nonces (trace o)) <= 1)%nat /\
  forall receiver_id nonce actions block_hash who,
    CallSign receiver_id nonce actions block_hash who ∈ trace o ->
    receiver_id = receiver_of sub /\
    actions = actions_of sub /\
    who = _signer (self s) /\
    nonce_stores (trace o) = [nonce] /\
    py_getitem (_access_key (self (final o))) (py "nonce") = Ok nonce.
Proof.
  cbv zeta. pose proof (submit_by_increment sub s) as H.
  destruct (incremented (_access_key (self s))) as [[new updated]|e].
  - destruct H as (Hself & Hst & Hget & Hall & Hlen).
    split; [exact Hlen|].
    intros receiver_id nonce actions block_hash who Hin.
    rewrite Forall_forall in Hall. specialize (Hall _ Hin).
    destruct Hall as (-> & -> & -> & ->).
    by rewrite Hself, Hst.
  - rewrite H. cbn. split; [lia|].
    intros ? ? ? ? ? Hin. by apply elem_of_nil in Hin.
Qed.

(** ** Responses the synchronous method cannot read *)

(** X8. When the response of [send_tx_and_wait] is a mapping without a
    ["transaction_outcome"] or without a ["receipts_outcome"] entry, the
    synchronous method raises [KeyError] for the first missing one before
    it prints anything, although the transaction has been submitted; the
    status of the response is not looked at. *)
Theorem sync_response_without_outcomes receiver_id actions s tx d w :
  let s1 := final (assemble receiver_id actions s) in
  res (assemble receiver_id actions s) = Ok tx ->
  send_tx_and_wait (_provider (self s1)) tx 10 (world s1) = (Ok (PDict d), w) ->
  d !! py "transaction_outcome" = None \/ d !! py "receipts_outcome" = None ->
  let o := _sign_and_submit_tx receiver_id actions s in
  res o = Raise (KeyError (match d !! py "transaction_outcome" with
                        | Some _ => py "receipts_outcome"
                        | None => py "transaction_outcome"
                        end)) /\
  printed (trace o) = [] /\
  submitted (trace o) = [tx] /\
  world (final o) = w.
Proof.
  cbv zeta. intros Htx Hsend Hmiss.
  rewrite (sync_after_assembly _ _ _ _ _ _ Htx Hsend).
  pose proof (assemble_prints_nothing receiver_id actions s) as Hp.
  pose proof (assemble_submits_nothing receiver_id actions s) as Hs.
  assert (Hlogs : tree_logs (PDict d) =
            ([], Raise (KeyError (match d !! py "transaction_outcome" with
                               | Some _ => py "receipts_outcome"
                               | None => py "transaction_outcome"
                               end)))).
  { unfold tree_logs. cbn [py_getitem].
    destruct (d !! py "transaction_outcome") as [t|]; [|done].
    destruct Hmiss as [?| ->]; done. }
  rewrite Hlogs. cbn [res final trace world fst snd fmap list_fmap].
  unfold printed, submitted in *.
  rewrite !omap_app, Hp, Hs. done.
Qed.

(** X9. When a receipt outcome of the response has no logs to iterate over,
    the synchronous method has printed the logs of the transaction outcome
    and of the receipt outcomes before it, and raises the error of that
    lookup; it does not reach the status, so that a [Failure] status is not
    reported. *)
Theorem sync_logs_stop_at_unreadable_receipt receiver_id actions s tx result w
    (transaction_outcome bad : PyVal) (tx_logs : list PyVal)
    (good rest : list PyVal) (good_logs : list (list PyVal)) e :
  let s1 := final (assemble receiver_id actions s) in
  res (assemble receiver_id actions s) = Ok tx ->
  send_tx_and_wait (_provider (self s1)) tx 10 (world s1) = (Ok result, w) ->
  py_getitem result (py "transaction_outcome") = Ok transaction_outcome ->
  has_logs transaction_outcome tx_logs ->
  py_getitem result (py "receipts_outcome") =
    Ok (PList (good ++ bad :: rest)) ->
  Forall2 has_logs good good_logs ->
  outcome_logs bad = Raise e ->
  let o := _sign_and_submit_tx receiver_id actions s in
  res o = Raise e /\
  printed (trace o) = tx_logs ++ concat good_logs.
Proof.
  cbv zeta. intros Htx Hsend Ht Htl Hr Hgood Hbad.
  rewrite (sync_after_assembly _ _ _ _ _ _ Htx Hsend).
  pose proof (assemble_prints_nothing receiver_id actions s) as Hp.
  assert (Hrec : receipts_logs (good ++ bad :: rest) =
                 (concat good_logs, Raise e)).
  { clear -Hgood Hbad.
    induction Hgood as [|o logs good' more Ho _ IH]; cbn [app receipts_logs].
    - by rewrite Hbad.
    - by rewrite (has_logs_outcome_logs _ _ Ho), IH. }
  assert (Hlogs : tree_logs result = (tx_logs ++ concat good_logs, Raise e)).
  { unfold tree_logs.
    rewrite Ht, Hr, (has_logs_outcome_logs _ _ Htl). cbn [py_iter].
    by rewrite Hrec. }
  rewrite Hlogs. cbn [res trace fst snd]. split; [done|].
  unfold printed in *. rewrite omap_app, Hp. cbn [omap list_omap app].
  apply printed_Print.
Qed.

(** X10. When the status of an outcome tree is a bare string, the
    synchronous method returns the response if the string does not contain
    [Failure], and raises [TypeError], not [TransactionError], if it does. *)
Theorem sync_status_as_string receiver_id actions s tx result w
    (tx_logs : list PyVal) (receipt_logs : list (list PyVal))
    (text : pystr) :
  let s1 := final (assemble receiver_id actions s) in
  res (assemble receiver_id actions s) = Ok tx ->
  send_tx_and_wait (_provider (self s1)) tx 10 (world s1) = (Ok result, w) ->
  is_outcome_tree result tx_logs receipt_logs ->
  py_getitem result (py "status") = Ok (PStr text) ->
  res (_sign_and_submit_tx receiver_id actions s) =
    if is_substring (py "Failure") text then Raise TypeError else Ok result.
Proof.
  cbv zeta. intros Htx Hsend Htree Hstatus.
  rewrite (sync_after_assembly _ _ _ _ _ _ Htx Hsend).
  rewrite (tree_logs_all _ _ _ Htree). cbn [res snd].
  unfold classify. rewrite Hstatus. cbn [py_contains].
  by destruct (is_substring (py "Failure") text).
Qed.

(** ** Replies and failures of the transport *)

(** X11. When the provider answers [send_tx] with a reply that has no
    length ([None], a number or a boolean), the asynchronous method raises
    [TypeError] at [len(result)]; the transaction has been sent once by
    then, and the method has printed nothing. *)
Theorem async_reply_without_length receiver_id actions s tx reply w :
  let s1 := final (assemble receiver_id actions s) in
  res (assemble receiver_id actions s) = Ok tx ->
  send_tx (_provider (self s1)) tx (world s1) = (Ok reply, w) ->
  match reply with
  | PNone | PBool _ | PInt _ => True
  | _ => False
  end ->
  let o := _sign_and_submit_tx_async receiver_id actions s in
  res o = Raise TypeError /\
  submitted (trace o) = [tx] /\
  printed (trace o) = [] /\
  world (final o) = w.
Proof.
  cbv zeta. intros Htx Hsend Hreply.
  rewrite (async_after_assembly _ _ _ _ _ _ Htx Hsend).
  pose proof (assemble_prints_nothing receiver_id actions s) as Hp.
  pose proof (assemble_submits_nothing receiver_id actions s) as Hs.
  cbn [res final trace world]. split; [by destruct reply|].
  unfold printed, submitted in *. by rewrite !omap_app, Hp, Hs.
Qed.

(** X12. When the provider raises on the submission itself
    ([send_tx_and_wait] in the synchronous method, [send_tx] in the
    asynchronous one), the call raises that error, nothing is printed, and
    the nonce of the account stays incremented. *)
Theorem transport_error_keeps_increment sub s n tx e w :
  let s1 := final (assemble (receiver_of sub) (actions_of sub) s) in
  nonce_of (self s) = Some n ->
  res (assemble (receiver_of sub) (actions_of sub) s) = Ok tx ->
  match sub with
  | Sync _ _ => send_tx_and_wait (_provider (self s1)) tx 10 (world s1)
  | Async _ _ => send_tx (_provider (self s1)) tx (world s1)
  end = (Raise e, w) ->
  let o := submit sub s in
  res o = Raise e /\
  nonce_of (self (final o)) = Some (n + 1) /\
  submitted (trace o) = [tx] /\
  printed (trace o) = [].
Proof.
  cbv zeta. intros Hn Htx Hsend.
  destruct (assemble_effects sub s n Hn) as (Hn' & _).
  pose proof (assemble_prints_nothing (receiver_of sub) (actions_of sub) s)
    as Hp.
  pose proof (assemble_submits_nothing (receiver_of sub) (actions_of sub) s)
    as Hs.
  rewrite submit_split, bind_run, Htx.
  destruct sub; cbn [send_step res final trace].
  - rewrite wait_and_classify_run, Hsend. cbn [res final trace self].
    unfold printed, submitted in *. by rewrite !omap_app, Hp, Hs.
  - rewrite fire_run, Hsend. cbn [res final trace self].
    unfold printed, submitted in *. by rewrite !omap_app, Hp, Hs.
Qed.

(** ** The operations that serialize their arguments *)

Lemma dump_args_run (args : PyVal) s :
  dump_args args s =
  mkOut (Action := Action)
    match json_dumps args with
    | Raise e => Raise e
    | Ok text => utf8_encode text
    end s [CallJsonDumps args].
Proof.
  unfold dump_args. unfold bind, call_pure, lift.
  by destruct (json_dumps args) as [text|e].
Qed.

(** X13. When [json.dumps] cannot serialize the arguments, each of the six
    operations that take arguments raises that error with the account
    untouched: the nonce is not incremented, and no block hash is fetched,
    nothing signed, nothing sent. *)
Theorem arguments_not_serializable (contract_id method_name : pystr)
    (public_key contract_code initial_balance args gas amount : PyVal) s e :
  json_dumps args = Raise e ->
  Forall (fun operation => operation s = mkOut (Raise e) s [CallJsonDumps args])
    (operations_with_args contract_id method_name public_key contract_code
       initial_balance args gas amount).
Proof.
  intros Hdumps.
  assert (Hd : dump_args args s =
               mkOut (Action := Action) (Raise e) s [CallJsonDumps args])
    by (by rewrite dump_args_run, Hdumps).
  unfold operations_with_args.
  repeat (apply Forall_cons; split; [|]); try apply Forall_nil_2.
  all: unfold function_call, function_call_async, deploy_and_init_contract,
         deploy_and_init_contract_async, create_deploy_and_init_contract,
         create_deploy_and_init_contract_async.
  all: unfold bind at 1; by rewrite Hd.
Qed.

(** X14. When the arguments serialize, [function_call] and
    [function_call_async] are the submission of a single function-call
    action that carries the UTF-8 bytes of the JSON text, the given gas and
    amount: same result and final state, and the same trace after the
    serialization. *)
Theorem function_call_serializes_then_submits (contract_id method_name : pystr)
    (args gas amount : PyVal) s text encoded :
  json_dumps args = Ok text ->
  utf8_encode text = Ok encoded ->
  let action := create_function_call_action method_name encoded gas amount in
  let after (o' o : Out PyVal) :=
    res o = res o' /\ final o = final o' /\
    trace o = CallJsonDumps args :: trace o' in
  after (submit (Sync contract_id [action]) s)
        (function_call contract_id method_name args gas amount s) /\
  after (submit (Async contract_id [action]) s)
        (function_call_async contract_id method_name args gas amount s).
Proof.
  intros Hdumps Henc. cbv zeta.
  assert (Hd : dump_args args s =
               mkOut (Action := Action) (Ok encoded) s [CallJsonDumps args])
    by (by rewrite dump_args_run, Hdumps, Henc).
  unfold function_call, function_call_async.
  rewrite !bind_run, Hd. cbn [res final trace submit]. done.
Qed.

(** ** Responses the view method cannot read *)

(** X15. A view-call response with neither an ["error"] nor a ["result"]
    entry makes [view_function] raise [KeyError] for ["result"];
    [json.loads] is not called. *)
Theorem view_response_without_result contract_id method_name (args : PyVal)
    s text encoded d w :
  json_dumps args = Ok text ->
  utf8_encode text = Ok encoded ->
  view_call (_provider (self s)) contract_id method_name encoded (world s) =
    (Ok (PDict d), w) ->
  d !! py "error" = None ->
  d !! py "result" = None ->
  view_function contract_id method_name args s =
    mkOut (Raise (KeyError (py "result"))) (mkState w (self s))
      [CallJsonDumps args; CallViewCall contract_id method_name encoded].
Proof.
  intros Hdumps Henc Hcall Herr Hres.
  rewrite view_function_run, Hdumps, Henc. cbv zeta. rewrite Hcall.
  cbn [py_contains]. rewrite Herr.
  rewrite bool_decide_eq_false_2 by (intros [? ?]; done).
  unfold view_text. cbn [py_getitem]. by rewrite Hres.
Qed.

Lemma chr_all_stops (codes : list Z) (bad : PyVal) (rest : list PyVal) e :
  Forall (fun c => 0 <= c < 0x110000) codes ->
  py_chr bad = Raise e ->
  chr_all ((PInt <$> codes) ++ bad :: rest) = Raise e.
Proof.
  intros Hcodes Hbad.
  induction Hcodes as [|c codes Hc _ IH]; cbn [fmap list_fmap app chr_all].
  - by rewrite Hbad.
  - fold (fmap (M := list) PInt codes).
    by rewrite IH, (py_chr_code c Hc).
Qed.

(** X16. A ["result"] list in which an element is not a character code
    makes [view_function] raise before [json.loads] is called:
    [OverflowError] for an integer that does not fit a C [int],
    [ValueError] for one that fits but is not a code point, [TypeError] for
    an element that is not a number (a string, a list, a mapping or
    [None]). *)
Theorem view_result_with_bad_code contract_id method_name (args : PyVal)
    s text encoded d w (codes : list Z) (bad : PyVal) (rest : list PyVal) :
  json_dumps args = Ok text ->
  utf8_encode text = Ok encoded ->
  view_call (_provider (self s)) contract_id method_name encoded (world s) =
    (Ok (PDict d), w) ->
  d !! py "error" = None ->
  d !! py "result" = Some (PList ((PInt <$> codes) ++ bad :: rest)) ->
  Forall (fun c => 0 <= c < 0x110000) codes ->
  match bad with
  | PInt z => z < 0 \/ 0x110000 <= z
  | PBool _ => False
  | _ => True
  end ->
  view_function contract_id method_name args s =
    mkOut (Raise match bad with
                 | PInt z =>
                     if (z <? -2147483648) || (2147483647 <? z)
                     then OverflowError else ValueError
                 | _ => TypeError
                 end)
      (mkState w (self s))
      [CallJsonDumps args; CallViewCall contract_id method_name encoded].
Proof.
  intros Hdumps Henc Hcall Herr Hres Hcodes Hbad.
  rewrite view_function_run, Hdumps, Henc. cbv zeta. rewrite Hcall.
  cbn [py_contains]. rewrite Herr.
  rewrite bool_decide_eq_false_2 by (intros [? ?]; done).
  unfold view_text. cbn [py_getitem]. rewrite Hres. cbn [py_iter].
  rewrite (chr_all_stops codes bad rest
             match bad with
             | PInt z =>
                 if (z <? -2147483648) || (2147483647 <? z)
                 then OverflowError else ValueError
             | _ => TypeError
             end);
    [reflexivity|exact Hcodes|].
  destruct bad as [|b|z|t|l|m]; cbn [py_chr]; try done.
  destruct ((z <? -2147483648) || (2147483647 <? z)); [reflexivity|].
  replace ((0 <=? z) && (z <? 1114112)) with false; [reflexivity|].
  symmetry. apply andb_false_iff.
  destruct Hbad; [left; apply Z.leb_gt | right; apply Z.ltb_ge]; lia.
Qed.

(** ** Text and bytes *)

Lemma utf8_encode_ascii (text : pystr) :
  Forall (fun c => 0 <= c < 128) text -> utf8_encode text = Ok text.
Proof.
  induction 1 as [|c text Hc _ IH]; [reflexivity|].
  cbn [utf8_encode]. unfold utf8_encode_char.
  destruct (Z.ltb_spec c 0); [lia|].
  destruct (Z.ltb_spec c 128); [|lia].
  by rewrite IH.
Qed.

Lemma utf8_encode_char_length (c : Z) (b : list Z) :
  utf8_encode_char c = Ok b ->
  (1 <= length b)%nat /\ (128 <= c -> (2 <= length b)%nat).
Proof.
  unfold utf8_encode_char.
  destruct (Z.ltb_spec c 0); [discriminate|].
  destruct (Z.ltb_spec c 128); [intros [= <-]; cbn; split; [lia|intros; lia]|].
  destruct (Z.ltb_spec c 2048); [intros [= <-]; cbn; split; lia|].
  destruct (Z.ltb_spec c 65536).
  { destruct ((55296 <=? c) && (c <=? 57343)); [discriminate|].
    intros [= <-]; cbn; split; lia. }
  destruct (Z.ltb_spec c 1114112); [intros [= <-]; cbn; split; lia|].
  discriminate.
Qed.

Lemma utf8_encode_length (text : pystr) :
  forall encoded,
    utf8_encode text = Ok encoded ->
    (length text <= length encoded)%nat /\
    (Exists (fun c => 128 <= c) text ->
     (length text < length encoded)%nat).
Proof.
  induction text as [|c text IH]; intros encoded; cbn [utf8_encode].
  - intros [= <-]. split; [done|]. intros H. by apply Exists_nil in H.
  - destruct (utf8_encode_char c) as [b|] eqn:Hb; [|discriminate].
    destruct (utf8_encode text) as [bs|]; [|discriminate].
    intros [= <-]. destruct (IH bs eq_refl) as [Hle Hlt].
    destruct (utf8_encode_char_length c b Hb) as [H1 H2].
    rewrite length_app. cbn [length]. split; [lia|].
    intros [Hc|Hex]%Exists_cons; [specialize (H2 Hc) | specialize (Hlt Hex)];
      lia.
Qed.

(** X17. The text [view_function] hands to [json.loads] has one character
    per byte of the result.  Encoded back as UTF-8 it gives the bytes of the
    result exactly when they are all ASCII: a result with a byte of 128 or
    more is not read as UTF-8. *)
Theorem view_text_is_utf8_only_for_ascii contract_id method_name
    (args : PyVal) s text encoded d (bytes : list Z) w :
  json_dumps args = Ok text ->
  utf8_encode text = Ok encoded ->
  view_call (_provider (self s)) contract_id method_name encoded (world s) =
    (Ok (PDict d), w) ->
  d !! py "error" = None ->
  d !! py "result" = Some (PList (PInt <$> bytes)) ->
  Forall (fun b => 0 <= b < 256) bytes ->
  exists parsed,
    last (trace (view_function contract_id method_name args s)) =
      Some (CallJsonLoads parsed) /\
    length parsed = length bytes /\
    (utf8_encode parsed = Ok bytes <-> Forall (fun b => b < 128) bytes).
Proof.
  intros Hdumps Henc Hcall Herr Hres Hbytes. exists bytes.
  rewrite view_function_run, Hdumps, Henc. cbv zeta. rewrite Hcall.
  cbn [py_contains]. rewrite Herr.
  rewrite bool_decide_eq_false_2 by (intros [? ?]; done).
  unfold view_text. cbn [py_getitem]. rewrite Hres. cbn [py_iter].
  rewrite chr_all_ints, join_singletons;
    [|eapply Forall_impl; [exact Hbytes|]; cbn; intros; lia].
  cbn [trace]. split; [reflexivity|]. split; [reflexivity|]. split.
  - intros Hback. apply Forall_forall. intros b Hb.
    destruct (Z.lt_ge_cases b 128) as [|Hge]; [done|]. exfalso.
    destruct (utf8_encode_length bytes bytes Hback) as [_ Hlt].
    assert (length bytes < length bytes)%nat; [|lia].
    apply Hlt. apply Exists_exists. eauto.
  - intros Hascii. apply utf8_encode_ascii.
    rewrite Forall_forall in *. intros b Hb.
    specialize (Hbytes b Hb). specialize (Hascii b Hb). lia.
Qed.

(** X18. When the latest block hash of the status reply is an ASCII string,
    as base58 text is, the bytes handed to [base58.b58decode] are the codes
    of its characters. *)
Theorem ascii_block_hash_is_decoded_as_it_is sub s n status w1 sync_info
    (text : pystr) :
  nonce_of (self s) = Some n ->
  get_status (_provider (self s)) (world s) = (Ok status, w1) ->
  py_getitem status (py "sync_info") = Ok sync_info ->
  py_getitem sync_info (py "latest_block_hash") = Ok (PStr text) ->
  Forall (fun c => 0 <= c < 128) text ->
  exists rest,
    trace (submit sub s) =
      [StoreAccessKey (py "nonce") (PInt (n + 1));
       CallGetStatus;
       CallB58Decode text] ++ rest.
Proof.
  intros Hnonce Hstatus Hinfo Hhash Hascii.
  assert (Htext : block_hash_text status = Ok text).
  { unfold block_hash_text. rewrite Hinfo, Hhash. cbn [py_encode_utf8].
    by apply utf8_encode_ascii. }
  destruct (proj1 (nonce_of_Some _ _) Hnonce) as (d & Hk & Hn).
  rewrite submit_split, bind_run, (assemble_run _ _ _ _ _ Hk Hn). cbv zeta.
  rewrite Hstatus, Htext.
  destruct (b58decode text) as [h|e];
    [destruct (sign_and_serialize_transaction _ _ _ _ _ _) as [[tx|e] w2]|];
    cbn [res final trace]; by eexists.
Qed.

(** ** Construction *)

(** X19. [Account(provider, signer, account_id)] succeeds exactly when the
    account lookup, the encoding of the signer's public key and the
    access-key lookup for that key succeed, in this order; the account then
    holds the three arguments and the two answers.  When the account lookup
    raises, the constructor raises the same error without asking for the
    access key. *)
Theorem construction_needs_both_lookups (p : JsonProvider World)
    (who : Signer) (id : pystr) (w : World) :
  (forall a w',
      init p who id w = (Ok a, w') <->
      exists snapshot w1 public_key key,
        get_account p id w = (Ok snapshot, w1) /\
        encoded_public_key who = Ok public_key /\
        get_access_key p id public_key w1 = (Ok key, w') /\
        a = mkAccount p who id snapshot key) /\
  (forall e w1,
      get_account p id w = (Raise e, w1) -> init p who id w = (Raise e, w1)).
Proof.
  unfold init. split.
  - intros a w'. split.
    + destruct (get_account p id w) as [[snapshot|e] w1]; [|discriminate].
      destruct (encoded_public_key who) as [public_key|e]; [|discriminate].
      destruct (get_access_key p id public_key w1) as [[key|e] w2] eqn:Hkey;
        [|discriminate].
      intros [= <- <-]. by exists snapshot, w1, public_key, key.
    + intros (snapshot & w1 & public_key & key & -> & -> & -> & ->).
      reflexivity.
  - by intros e w1 ->.
Qed.

(** X20. The first submission of a freshly constructed account stores and
    signs the nonce the provider reported for the access key, plus one. *)
Theorem first_submission_after_construction (p : JsonProvider World)
    (who : Signer) (id : pystr) (w : World) sub snapshot w1 public_key d w2 n :
  get_account p id w = (Ok snapshot, w1) ->
  encoded_public_key who = Ok public_key ->
  get_access_key p id public_key w1 = (Ok (PDict d), w2) ->
  d !! py "nonce" = Some (PInt n) ->
  exists a,
    init p who id w = (Ok a, w2) /\
    let o := submit sub (mkState w2 a) in
    nonce_stores (trace o) = [PInt (n + 1)] /\
    (forall v, v ∈ signed_nonces (trace o) -> v = PInt (n + 1)) /\
    nonce_of (self (final o)) = Some (n + 1).
Proof.
  intros Hacc Hpk Hkey Hn.
  exists (mkAccount p who id snapshot (PDict d)). split.
  - unfold init. by rewrite Hacc, Hpk, Hkey.
  - cbv zeta.
    assert (Hnonce : nonce_of (self (mkState w2
                        (mkAccount p who id snapshot (PDict d)))) = Some n).
    { unfold nonce_of. cbn [self _access_key]. by rewrite Hn. }
    destruct (submit_effects sub _ n Hnonce) as (Hn' & Hst & Hsg).
    split; [exact Hst|]. split; [|exact Hn'].
    intros v Hv. destruct Hsg as [Hsg|Hsg]; rewrite Hsg in Hv.
    + by apply elem_of_nil in Hv.
    + by apply list_elem_of_singleton in Hv.
Qed.

(** ** A transaction that fails on chain *)

(** X21. When the outcome tree of a synchronous submission reports a
    [Failure], the [TransactionError] is raised after the transaction was
    submitted and after every log of the tree was printed, and the nonce the
    transaction used stays spent. *)
Theorem failed_transaction_is_logged_and_spends_nonce receiver_id actions s n
    tx result w (tx_logs : list PyVal) (receipt_logs : list (list PyVal))
    d (payload : PyVal) :
  let s1 := final (assemble receiver_id actions s) in
  nonce_of (self s) = Some n ->
  res (assemble receiver_id actions s) = Ok tx ->
  send_tx_and_wait (_provider (self s1)) tx 10 (world s1) = (Ok result, w) ->
  is_outcome_tree result tx_logs receipt_logs ->
  py_getitem result (py "status") = Ok (PDict d) ->
  d !! py "Failure" = Some payload ->
  let o := _sign_and_submit_tx receiver_id actions s in
  res o = Raise (TransactionError (Payload payload)) /\
  printed (trace o) = tx_logs ++ concat receipt_logs /\
  submitted (trace o) = [tx] /\
  nonce_of (self (final o)) = Some (n + 1).
Proof.
  cbv zeta. intros Hn Htx Hsend Htree Hstatus Hfail.
  destruct (assemble_effects (Sync receiver_id actions) s n Hn) as (Hn' & _).
  cbn [receiver_of actions_of] in Hn'.
  pose proof (assemble_prints_nothing receiver_id actions s) as Hp.
  pose proof (assemble_submits_nothing receiver_id actions s) as Hs.
  rewrite (sync_after_assembly _ _ _ _ _ _ Htx Hsend).
  rewrite (tree_logs_all _ _ _ Htree). cbn [res final trace self fst snd].
  split.
  - unfold classify. rewrite Hstatus. cbn [py_contains py_getitem].
    rewrite Hfail. by rewrite bool_decide_eq_true_2 by eauto.
  - unfold printed, submitted in *. rewrite !omap_app, Hp, Hs.
    cbn [omap list_omap app].
    split; [apply printed_Print|]. split; [|exact Hn'].
    by rewrite omap_Print_None.
Qed.

End Properties.

(** * Scenarios

    The properties above, applied to alice (nonce 5) and the scripted
    nodes. *)

Example b58decode_hello_world :
  ref_b58decode (py "StV1DL6CwTryKyV") = Ok (py "hello world").
Proof. reflexivity. Qed.

Example hello_bytes : py "Hello" = [72; 101; 108; 108; 111].
Proof. reflexivity. Qed.

Example alice_is_constructed :
  init good_node (PStr (py "ed25519:alice")) (py "alice") [] =
  (Ok (alice good_node), []).
Proof. reflexivity. Qed.

(** The scenario of the specification: alice, nonce 5, transfers 100 to bob
    synchronously; the node reports success; the nonce is 6 afterwards and
    the outcome tree is returned. *)
Example alice_pays_bob :
  let o := send_money (py "bob") (PInt 100) (start good_node) in
  res o = Ok success_tree /\
  nonce_of (self (final o)) = Some 6 /\
  world (final o) = [bob_tx].
Proof. vm_compute. repeat split. Qed.

Lemma nonces_strictly_increase_witness :
  nonce_of (self (start good_node)) = Some 5 /\
  forall (i j : nat) oi oj x y,
    (i < j)%nat ->
    run_all three_submissions (start good_node) !! i = Some oi ->
    run_all three_submissions (start good_node) !! j = Some oj ->
    PInt x ∈ signed_nonces (trace oi) ->
    PInt y ∈ signed_nonces (trace oj) ->
    x < y.
Proof.
  split; [reflexivity|].
  apply (nonces_strictly_increase three_submissions (start good_node) 5).
  reflexivity.
Defined.

Lemma outcome_tree_is_outcome_tree (status : PyVal) :
  is_outcome_tree (outcome_tree status) [PStr (py "sent")]
    [[PStr (py "r1 a"); PStr (py "r1 b")]; []; [PStr (py "r3")]].
Proof.
  exists (outcome ["sent"]),
    [outcome ["r1 a"; "r1 b"]; outcome []; outcome ["r3"]].
  split; [reflexivity|]. split; [reflexivity|]. split.
  - eexists. split; reflexivity.
  - repeat (constructor; [eexists; split; reflexivity|]). constructor.
Qed.

Lemma sync_result_classification_witness :
  res (assemble (py "bob") to_bob (start failing_node)) = Ok bob_tx /\
  res (_sign_and_submit_tx (py "bob") to_bob (start failing_node)) =
    Raise (TransactionError (Payload failure_payload)) /\
  res (_sign_and_submit_tx (py "bob") to_bob (start good_node)) =
    Ok success_tree /\
  res (_sign_and_submit_tx (py "bob") to_bob (start pending_node)) =
    Ok not_started_tree.
Proof.
  split; [reflexivity|]. split; [|split].
  - assert (Ha : res (assemble (py "bob") to_bob (start failing_node)) =
                 Ok bob_tx) by reflexivity.
    assert (Hs : send_tx_and_wait failing_node bob_tx 10 [] =
                 (Ok failure_tree, [bob_tx])) by reflexivity.
    assert (Hst : py_getitem failure_tree (py "status") =
                  Ok (dict [("Failure", failure_payload)])) by reflexivity.
    destruct (sync_result_classification (py "bob") to_bob
                (start failing_node) bob_tx failure_tree [bob_tx] _ _ _
                Ha Hs (outcome_tree_is_outcome_tree _) Hst) as (H & _).
    apply H. eexists. split; reflexivity.
  - assert (Ha : res (assemble (py "bob") to_bob (start good_node)) =
                 Ok bob_tx) by reflexivity.
    assert (Hs : send_tx_and_wait good_node bob_tx 10 [] =
                 (Ok success_tree, [bob_tx])) by reflexivity.
    assert (Hst : py_getitem success_tree (py "status") =
                  Ok (PDict {[ py "SuccessValue" := PStr (py "") ]}))
      by reflexivity.
    destruct (sync_result_classification (py "bob") to_bob
                (start good_node) bob_tx success_tree [bob_tx] _ _ _
                Ha Hs (outcome_tree_is_outcome_tree _) Hst) as (_ & H & _).
    apply (H {[ py "SuccessValue" := PStr (py "") ]}); reflexivity.
  - assert (Ha : res (assemble (py "bob") to_bob (start pending_node)) =
                 Ok bob_tx) by reflexivity.
    assert (Hs : send_tx_and_wait pending_node bob_tx 10 [] =
                 (Ok not_started_tree, [bob_tx])) by reflexivity.
    assert (Hst : py_getitem not_started_tree (py "status") =
                  Ok (PStr (py "NotStarted"))) by reflexivity.
    destruct (sync_result_classification (py "bob") to_bob
                (start pending_node) bob_tx not_started_tree [bob_tx] _ _ _
                Ha Hs (outcome_tree_is_outcome_tree _) Hst) as (_ & _ & H & _).
    apply (H (py "NotStarted")); [reflexivity|].
    intros before after Heq.
    assert (Hsub : is_substring (py "Failure") (py "NotStarted") = true)
      by (apply is_substring_spec; eauto).
    discriminate Hsub.
Defined.



(** C3 at a concrete reply: alice calls a contract asynchronously and the
    node answers [send_tx] with a transaction hash of 44 characters; the call
    raises [TransactionError] instead of returning the hash, although the
    transaction has been sent and the nonce spent. *)
Theorem async_hash_of_44_characters_raises :
  let o := _sign_and_submit_tx_async (py "contract")
             [FunctionCall (py "set_value") (py "1")
                (PInt DEFAULT_ATTACHED_GAS) (PInt 0)]
             (start async_node) in
  py_len tx_hash = Ok 44 /\
  res o = Raise (TransactionError (Formatted tx_hash)) /\
  res o <> Ok tx_hash /\
  length (world (final o)) = 1%nat /\
  nonce_of (self (final o)) = Some 6.
Proof. vm_compute. repeat split. discriminate. Qed.

Lemma assembly_steps_in_order_witness :
  nonce_of (self (start good_node)) = Some 5 /\
  exists rest,
    trace (submit (Sync (py "bob") to_bob) (start good_node)) =
      [StoreAccessKey (py "nonce") (PInt 6);
       CallGetStatus;
       CallB58Decode (py "StV1DL6CwTryKyV");
       CallSign (py "bob") (PInt 6) to_bob (py "hello world")
         (PStr (py "ed25519:alice"))] ++ rest /\
    Forall (fun ev => is_assembly_event ev = false) rest /\
    nonce_of (self (final (submit (Sync (py "bob") to_bob)
                             (start good_node)))) = Some 6.
Proof.
  split; [reflexivity|].
  apply (assembly_steps_in_order (Sync (py "bob") to_bob) (start good_node) 5
           status_reply []
           (dict [("latest_block_hash", PStr (py "StV1DL6CwTryKyV"))])
           (py "StV1DL6CwTryKyV") (py "StV1DL6CwTryKyV")
           (py "hello world")); reflexivity.
Defined.

Lemma view_error_raises_before_decoding_witness :
  let o := view_function (py "contract") (py "get_value") PNone
             (start view_error_node) in
  view_error_reply !! py "error" = Some (PStr (py "wasm execution failed")) /\
  res o = Raise (ViewFunctionError
                   (Payload (PStr (py "wasm execution failed")))) /\
  trace o = [CallJsonDumps PNone;
             CallViewCall (py "contract") (py "get_value") (py "null")] /\
  Forall (fun ev => is_json_loads ev = false) (trace o).
Proof.
  split; [reflexivity|].
  apply (view_error_raises_before_decoding (py "contract") (py "get_value")
           PNone (start view_error_node) (py "null") (py "null")
           view_error_reply (PStr (py "wasm execution failed")) []);
    reflexivity.
Defined.

Lemma view_result_is_decoded_and_parsed_witness :
  let o := view_function (py "contract") (py "greet") PNone
             (start hello_node) in
  hello_reply !! py "result" =
    Some (PList (PInt <$> [72; 101; 108; 108; 111])) /\
  trace o = [CallJsonDumps PNone;
             CallViewCall (py "contract") (py "greet") (py "null");
             CallJsonLoads (py "Hello")] /\
  res o = Raise json_error.
Proof.
  split; [reflexivity|].
  assert (Hbytes : Forall (fun b => 0 <= b < 256) [72; 101; 108; 108; 111])
    by (repeat constructor; lia).
  exact (view_result_is_decoded_and_parsed (py "contract") (py "greet")
           PNone (start hello_node) (py "null") (py "null")
           hello_reply [72; 101; 108; 108; 111] []
           eq_refl eq_refl eq_refl eq_refl eq_refl Hbytes).
Defined.

Lemma logs_surface_in_remote_order_witness :
  res (assemble (py "bob") to_bob (start good_node)) = Ok bob_tx /\
  printed (trace (_sign_and_submit_tx (py "bob") to_bob (start good_node))) =
    [PStr (py "sent"); PStr (py "r1 a"); PStr (py "r1 b"); PStr (py "r3")].
Proof.
  split; [reflexivity|].
  apply (logs_surface_in_remote_order (py "bob") to_bob (start good_node)
           bob_tx success_tree [bob_tx]
           [PStr (py "sent")]
           [[PStr (py "r1 a"); PStr (py "r1 b")]; []; [PStr (py "r3")]]).
  - reflexivity.
  - reflexivity.
  - exists (outcome ["sent"]),
      [outcome ["r1 a"; "r1 b"]; outcome []; outcome ["r3"]].
    split; [reflexivity|]. split; [reflexivity|]. split.
    + eexists. split; reflexivity.
    + repeat (constructor; [eexists; split; reflexivity|]). constructor.
Defined.

Lemma failed_assembly_keeps_increment_witness :
  let o := submit (Async (py "bob") to_bob) (start offline_node) in
  nonce_of (self (start offline_node)) = Some 5 /\
  res o = Raise unreachable /\
  nonce_of (self (final o)) = Some 6 /\
  nonce_stores (trace o) = [PInt 6] /\
  submitted (trace o) = [].
Proof.
  split; [reflexivity|].
  apply (failed_assembly_keeps_increment (Async (py "bob") to_bob)
           (start offline_node) 5 unreachable); [reflexivity|].
  by apply (status_request_fails _ _ _ _ []).
Defined.

(** ** Further scenarios *)

Lemma submission_without_nonce_entry_witness :
  no_nonce_key !! py "nonce" = None /\
  submit (Sync (py "bob") to_bob)
    (mkState [] (alice_with_key (PDict no_nonce_key) good_node)) =
  mkOut (Raise (KeyError (py "nonce")))
    (mkState [] (alice_with_key (PDict no_nonce_key) good_node)) [].
Proof.
  split; [reflexivity|].
  apply (submission_without_nonce_entry (Sync (py "bob") to_bob)
           (mkState [] (alice_with_key (PDict no_nonce_key) good_node))
           no_nonce_key); reflexivity.
Defined.

Lemma submission_with_non_numeric_nonce_witness :
  text_nonce_key !! py "nonce" = Some (PStr (py "5")) /\
  submit (Async (py "bob") to_bob)
    (mkState [] (alice_with_key (PDict text_nonce_key) good_node)) =
  mkOut (Raise TypeError)
    (mkState [] (alice_with_key (PDict text_nonce_key) good_node)) [].
Proof.
  split; [reflexivity|].
  apply (submission_with_non_numeric_nonce (Async (py "bob") to_bob)
           (mkState [] (alice_with_key (PDict text_nonce_key) good_node))
           text_nonce_key (PStr (py "5"))); reflexivity.
Defined.

Lemma submission_updates_only_nonce_entry_witness :
  let s' := final (submit (Sync (py "bob") to_bob)
                     (mkState [] (alice_with_key (PDict alice_key)
                                    failing_node))) in
  alice_key !! py "nonce" = Some (PInt 5) /\
  res (access_key (Action := RefAction) s') =
    Ok (PDict (<[py "nonce" := PInt 6]> alice_key)) /\
  py_getitem (_access_key (self s')) (py "permission") =
    Ok (PStr (py "FullAccess")).
Proof.
  split; [reflexivity|].
  destruct (submission_updates_only_nonce_entry (Sync (py "bob") to_bob)
              (mkState [] (alice_with_key (PDict alice_key) failing_node))
              alice_key 5 eq_refl eq_refl) as [Hkey Hother].
  split; [exact Hkey|].
  rewrite (Hother (py "permission")); [reflexivity|discriminate].
Defined.

Lemma nonce_after_submissions_witness :
  nonce_of (self (start good_node)) = Some 5 /\
  nonce_of (self (run_to_end three_submissions (start good_node))) = Some 8.
Proof.
  split; [reflexivity|].
  apply (nonce_after_submissions three_submissions (start good_node) 5).
  reflexivity.
Defined.

Lemma sync_response_without_outcomes_witness :
  let o := _sign_and_submit_tx (py "bob") to_bob (start bare_node) in
  bare_status_reply !! py "transaction_outcome" = None /\
  res o = Raise (KeyError (py "transaction_outcome")) /\
  printed (trace o) = [] /\
  submitted (trace o) = [bob_tx] /\
  world (final o) = [bob_tx].
Proof.
  split; [reflexivity|].
  exact (sync_response_without_outcomes (py "bob") to_bob (start bare_node)
           bob_tx bare_status_reply [bob_tx] eq_refl eq_refl
           (or_introl eq_refl)).
Defined.

Lemma sync_logs_stop_at_unreadable_receipt_witness :
  let o := _sign_and_submit_tx (py "bob") to_bob (start broken_node) in
  outcome_logs (dict [("id", PInt 2)]) = Raise (KeyError (py "outcome")) /\
  res o = Raise (KeyError (py "outcome")) /\
  printed (trace o) = [PStr (py "sent"); PStr (py "r1 a"); PStr (py "r1 b")].
Proof.
  split; [reflexivity|].
  apply (sync_logs_stop_at_unreadable_receipt (py "bob") to_bob
           (start broken_node) bob_tx broken_tree [bob_tx]
           (outcome ["sent"]) (dict [("id", PInt 2)])
           [PStr (py "sent")]
           [outcome ["r1 a"; "r1 b"]] [outcome ["r3"]]
           [[PStr (py "r1 a"); PStr (py "r1 b")]]).
  - reflexivity.
  - reflexivity.
  - reflexivity.
  - eexists. split; reflexivity.
  - reflexivity.
  - constructor; [eexists; split; reflexivity|constructor].
  - reflexivity.
Defined.

Lemma sync_status_as_string_witness :
  let o := _sign_and_submit_tx (py "bob") to_bob (start string_status_node) in
  py_getitem string_status_tree (py "status") = Ok (PStr (py "Failure")) /\
  res o = Raise TypeError.
Proof.
  split; [reflexivity|].
  apply (sync_status_as_string (py "bob") to_bob (start string_status_node)
           bob_tx string_status_tree [bob_tx]
           [PStr (py "sent")]
           [[PStr (py "r1 a"); PStr (py "r1 b")]; []; [PStr (py "r3")]]
           (py "Failure")).
  - reflexivity.
  - reflexivity.
  - exists (outcome ["sent"]),
      [outcome ["r1 a"; "r1 b"]; outcome []; outcome ["r3"]].
    split; [reflexivity|]. split; [reflexivity|]. split.
    + eexists. split; reflexivity.
    + repeat (constructor; [eexists; split; reflexivity|]). constructor.
  - reflexivity.
Defined.

Lemma async_reply_without_length_witness :
  let o := _sign_and_submit_tx_async (py "bob") to_bob (start silent_node) in
  res (assemble (py "bob") to_bob (start silent_node)) = Ok bob_tx /\
  res o = Raise TypeError /\
  submitted (trace o) = [bob_tx] /\
  printed (trace o) = [] /\
  world (final o) = [bob_tx].
Proof.
  split; [reflexivity|].
  exact (async_reply_without_length (py "bob") to_bob (start silent_node)
           bob_tx PNone [bob_tx] eq_refl eq_refl I).
Defined.

Lemma transport_error_keeps_increment_witness :
  let o := submit (Sync (py "bob") to_bob) (start dropping_node) in
  nonce_of (self (start dropping_node)) = Some 5 /\
  res o = Raise unreachable /\
  nonce_of (self (final o)) = Some 6 /\
  submitted (trace o) = [bob_tx] /\
  printed (trace o) = [].
Proof.
  split; [reflexivity|].
  exact (transport_error_keeps_increment (Sync (py "bob") to_bob)
           (start dropping_node) 5 bob_tx unreachable [bob_tx]
           eq_refl eq_refl eq_refl).
Defined.

Lemma arguments_not_serializable_witness :
  json_dumps (PList []) = Raise TypeError /\
  Forall (fun operation =>
            operation (start good_node) =
            mkOut (Raise TypeError) (start good_node)
              [CallJsonDumps (PList [])])
    (operations_with_args (py "contract") (py "new") PNone
       (PStr (py "wasm")) (PInt 10) (PList [])
       (PInt DEFAULT_ATTACHED_GAS) (PInt 0)).
Proof.
  split; [reflexivity|].
  apply (arguments_not_serializable (py "contract") (py "new") PNone
           (PStr (py "wasm")) (PInt 10) (PList [])
           (PInt DEFAULT_ATTACHED_GAS) (PInt 0) (start good_node) TypeError).
  reflexivity.
Defined.

Lemma function_call_serializes_then_submits_witness :
  let o := function_call (py "contract") (py "set_value") (PInt 1)
             (PInt DEFAULT_ATTACHED_GAS) (PInt 0) (start good_node) in
  let o' := submit (Sync (py "contract")
                      [FunctionCall (py "set_value") (py "1")
                         (PInt DEFAULT_ATTACHED_GAS) (PInt 0)])
              (start good_node) in
  json_dumps (PInt 1) = Ok (py "1") /\
  res o = res o' /\ final o = final o' /\
  trace o = CallJsonDumps (PInt 1) :: trace o'.
Proof.
  split; [reflexivity|].
  exact (proj1 (function_call_serializes_then_submits (py "contract")
                  (py "set_value") (PInt 1) (PInt DEFAULT_ATTACHED_GAS)
                  (PInt 0) (start good_node) (py "1") (py "1")
                  eq_refl eq_refl)).
Defined.

Lemma view_response_without_result_witness :
  empty_reply !! py "result" = None /\
  view_function (py "contract") (py "get_value") PNone
    (start empty_view_node) =
  mkOut (Raise (KeyError (py "result"))) (start empty_view_node)
    [CallJsonDumps PNone;
     CallViewCall (py "contract") (py "get_value") (py "null")].
Proof.
  split; [reflexivity|].
  exact (view_response_without_result (py "contract") (py "get_value") PNone
           (start empty_view_node) (py "null") (py "null") empty_reply []
           eq_refl eq_refl eq_refl eq_refl eq_refl).
Defined.

Lemma view_result_with_bad_code_witness :
  negative_reply !! py "result" =
    Some (PList ((PInt <$> [72]) ++ PInt (-1) :: [PInt 105])) /\
  view_function (py "contract") (py "get_value") PNone
    (start negative_view_node) =
  mkOut (Raise ValueError) (start negative_view_node)
    [CallJsonDumps PNone;
     CallViewCall (py "contract") (py "get_value") (py "null")] /\
  view_function (py "contract") (py "get_value") PNone
    (start overflow_view_node) =
  mkOut (Raise OverflowError) (start overflow_view_node)
    [CallJsonDumps PNone;
     CallViewCall (py "contract") (py "get_value") (py "null")].
Proof.
  split; [reflexivity|].
  assert (Hcodes : Forall (fun c => 0 <= c < 0x110000) [72])
    by (repeat constructor; lia).
  assert (Hneg : -1 < 0 \/ 0x110000 <= -1) by (left; lia).
  assert (Hbig : 2147483648 < 0 \/ 0x110000 <= 2147483648) by (right; lia).
  split.
  - exact (view_result_with_bad_code (py "contract") (py "get_value") PNone
             (start negative_view_node) (py "null") (py "null")
             negative_reply [] [72] (PInt (-1)) [PInt 105]
             eq_refl eq_refl eq_refl eq_refl eq_refl Hcodes Hneg).
  - exact (view_result_with_bad_code (py "contract") (py "get_value") PNone
             (start overflow_view_node) (py "null") (py "null")
             overflow_reply [] [72] (PInt 2147483648) []
             eq_refl eq_refl eq_refl eq_refl eq_refl Hcodes Hbig).
Defined.

Lemma view_text_is_utf8_only_for_ascii_witness :
  accent_reply !! py "result" = Some (PList (PInt <$> [34; 195; 169; 34])) /\
  exists parsed,
    last (trace (view_function (py "contract") (py "name") PNone
                   (start accent_view_node))) = Some (CallJsonLoads parsed) /\
    length parsed = 4%nat /\
    (utf8_encode parsed = Ok [34; 195; 169; 34] <->
     Forall (fun b => b < 128) [34; 195; 169; 34]).
Proof.
  split; [reflexivity|].
  assert (Hbytes : Forall (fun b => 0 <= b < 256) [34; 195; 169; 34])
    by (repeat constructor; lia).
  exact (view_text_is_utf8_only_for_ascii (py "contract") (py "name") PNone
           (start accent_view_node) (py "null") (py "null")
           accent_reply [34; 195; 169; 34] []
           eq_refl eq_refl eq_refl eq_refl eq_refl Hbytes).
Defined.

Lemma ascii_block_hash_is_decoded_as_it_is_witness :
  nonce_of (self (start good_node)) = Some 5 /\
  exists rest,
    trace (submit (Async (py "bob") to_bob) (start good_node)) =
      [StoreAccessKey (py "nonce") (PInt 6);
       CallGetStatus;
       CallB58Decode (py "StV1DL6CwTryKyV")] ++ rest.
Proof.
  split; [reflexivity|].
  assert (Hascii : Forall (fun c => 0 <= c < 128) (py "StV1DL6CwTryKyV"))
    by (repeat constructor; lia).
  exact (ascii_block_hash_is_decoded_as_it_is (Async (py "bob") to_bob)
           (start good_node) 5 status_reply []
           (dict [("latest_block_hash", PStr (py "StV1DL6CwTryKyV"))])
           (py "StV1DL6CwTryKyV") eq_refl eq_refl eq_refl eq_refl Hascii).
Defined.

Lemma first_submission_after_construction_witness :
  alice_key !! py "nonce" = Some (PInt 5) /\
  exists a,
    init good_node (PStr (py "ed25519:alice")) (py "alice") [] = (Ok a, []) /\
    let o := submit (Sync (py "bob") to_bob) (mkState [] a) in
    nonce_stores (trace o) = [PInt 6] /\
    (forall v, v ∈ signed_nonces (trace o) -> v = PInt 6) /\
    nonce_of (self (final o)) = Some 6.
Proof.
  split; [reflexivity|].
  exact (first_submission_after_construction good_node
           (PStr (py "ed25519:alice")) (py "alice") []
           (Sync (py "bob") to_bob)
           (dict [("amount", PStr (py "100"))]) []
           (PStr (py "ed25519:alice")) alice_key [] 5
           eq_refl eq_refl eq_refl eq_refl).
Defined.

Lemma failed_transaction_is_logged_and_spends_nonce_witness :
  let o := _sign_and_submit_tx (py "bob") to_bob (start failing_node) in
  nonce_of (self (start failing_node)) = Some 5 /\
  res o = Raise (TransactionError (Payload failure_payload)) /\
  printed (trace o) =
    [PStr (py "sent"); PStr (py "r1 a"); PStr (py "r1 b"); PStr (py "r3")] /\
  submitted (trace o) = [bob_tx] /\
  nonce_of (self (final o)) = Some 6.
Proof.
  split; [reflexivity|].
  apply (failed_transaction_is_logged_and_spends_nonce (py "bob") to_bob
           (start failing_node) 5 bob_tx failure_tree [bob_tx]
           [PStr (py "sent")]
           [[PStr (py "r1 a"); PStr (py "r1 b")]; []; [PStr (py "r3")]]
           {[ py "Failure" := failure_payload ]} failure_payload).
  - reflexivity.
  - reflexivity.
  - reflexivity.
  - exists (outcome ["sent"]),
      [outcome ["r1 a"; "r1 b"]; outcome []; outcome ["r3"]].
    split; [reflexivity|]. split; [reflexivity|]. split.
    + eexists. split; reflexivity.
    + repeat (constructor; [eexists; split; reflexivity|]). constructor.
  - reflexivity.
  - reflexivity.
Defined.
